(** * yahoo_oauth.py: the persistent store and the token life cycle

    A shallow embedding of [src/yahoo_oauth.py].

    - JSON values are the inductive [json]; a Python [dict] with string keys
      is a [gmap string json], so that Python's [==] on dictionaries is
      Leibniz equality and [dict.update] is a left-biased union.
    - A text file either parses to a JSON object ([Doc]) or makes [json.load]
      raise [JSONDecodeError] ([Malformed]).  Top-level documents are
      objects, as the docstring of [__read_file__] has it ("the loaded data
      from the file as a dictionary"); these are the files the program
      itself writes.  Directories and file permissions are not part of the
      model.
    - Under the documents lie bytes: the module [Raw] embeds the three store
      functions over files of bytes, with the strict UTF-8 decoding of
      [open(..., encoding="utf-8")] and with [json.loads] as a parameter, so
      that a file which does not decode, or whose value is not an object, can
      be spoken of.
    - Effects are explicit: a computation of type [Py A] takes the [world]
      (files, the module-level session object, the requests sent so far, the
      clock) and returns either a value or a raised exception, together with
      the world it leaves behind.
    - [requests_oauthlib.OAuth2Session] is a library, not part of this
      repository.  Its control flow ([token] setter, [request],
      [refresh_token], [fetch_token]) is written out; what oauthlib's client
      object computes inside it is the interface [OAuth2Client]. *)

From stdpp Require Import gmap strings list fin_maps.
From Stdlib Require Import ZArith.
From Stdlib.Strings Require Byte.

#[local] Open Scope Z_scope.
#[local] Open Scope string_scope.

#[local] Set Warnings "-register-all".

(** ** JSON values and documents *)

Inductive json : Type :=
| JNull
| JBool (b : bool)
| JNum (n : Z)
| JStr (s : string)
| JArr (items : list json)
| JObj (fields : gmap string json).

Abbreviation dict := (gmap string json).

(** The text of a file or of a response body. *)
Inductive document : Type :=
| Doc (m : dict)
| Malformed (raw : string).

(** [bool(d)] for a dictionary. *)
Definition truthy (d : dict) : bool := negb (Nat.eqb (size d) 0).

(** [bool(s)] for a string. *)
Definition truthy_str (s : string) : bool := negb (String.eqb s "").

(** [bool(v)] for a JSON value; [None] is [JNull]. *)
Definition truthy_value (v : json) : bool :=
  match v with
  | JNull => false
  | JBool b => b
  | JNum n => negb (n =? 0)%Z
  | JStr s => truthy_str s
  | JArr items => match items with [] => false | _ :: _ => true end
  | JObj fields => truthy fields
  end.

(** [d.update(other)], as a value: keys of [other] win. *)
Definition dict_update (d other : dict) : dict := other ∪ d.

(** ** Exceptions and results *)

Inductive exn : Type :=
| FileNotFoundError
| JSONDecodeError
| TypeError
| KeyError (key : string)
| ValueError
| TokenExpiredError
| OAuth2Error (description : string)
| RequestException
| UnicodeDecodeError
| RecursionError
| AttributeError.

Inductive result (A : Type) : Type :=
| Ok (a : A)
| Raise (e : exn).

Arguments Ok {A} a.
Arguments Raise {A} e.

(** [isinstance(e, OSError)]: [FileNotFoundError] and the exceptions of
    [requests] derive from it. *)
Definition is_OSError (e : exn) : bool :=
  match e with
  | FileNotFoundError | RequestException => true
  | _ => false
  end.

(** ** HTTP messages *)

Record http_request : Type := HttpRequest {
  method : string;
  url : string;
  headers : list (string * string);
  auth : option (string * string);
  data : dict
}.

Record http_response : Type := HttpResponse {
  status_code : Z;
  text : document
}.

Definition set_headers (h : list (string * string)) (r : http_request) : http_request :=
  HttpRequest (method r) (url r) h (auth r) (data r).

Definition set_auth (a : option (string * string)) (r : http_request) : http_request :=
  HttpRequest (method r) (url r) (headers r) a (data r).

(** ** oauthlib's client object, as an interface *)

Class OAuth2Client (C : Type) : Type := {
  (** [Client.populate_token_attributes(response)] at time [now] *)
  populate_token_attributes : C → dict → Z → result C;
  (** [Client.add_token(...)] with the session's token at time [now];
      raises [TokenExpiredError] on a stale token *)
  add_token : C → dict → Z → http_request → result http_request;
  (** [Client.prepare_request_body(code=..., redirect_uri=...)] *)
  prepare_request_body : C → string → string → dict;
  (** [Client.prepare_refresh_body(refresh_token=...)] *)
  prepare_refresh_body : C → option json → dict;
  (** [parse_token_response(body)] at time [now]: the token, with its
      derived expiry, or the provider's error *)
  parse_token_response : document → Z → result dict
}.

(** ** The world *)

Record world (C : Type) : Type := World {
  files : gmap string document;      (* the file system *)
  dumped : list (string * dict);     (* every [json.dump], oldest first *)
  sent : list http_request;          (* every request sent, oldest first *)
  session_token : option dict;       (* [oauth.token] *)
  client : C;                        (* [oauth._client] *)
  clock : Z                          (* [time.time()] *)
}.

Arguments World {C} _ _ _ _ _ _.
Arguments files {C} _.
Arguments dumped {C} _.
Arguments sent {C} _.
Arguments session_token {C} _.
Arguments client {C} _.
Arguments clock {C} _.

Definition set_files {C} (f : gmap string document) (w : world C) : world C :=
  World f (dumped w) (sent w) (session_token w) (client w) (clock w).

Definition set_dumped {C} (l : list (string * dict)) (w : world C) : world C :=
  World (files w) l (sent w) (session_token w) (client w) (clock w).

Definition set_sent {C} (l : list http_request) (w : world C) : world C :=
  World (files w) (dumped w) l (session_token w) (client w) (clock w).

Definition set_session_token {C} (t : option dict) (w : world C) : world C :=
  World (files w) (dumped w) (sent w) t (client w) (clock w).

Definition set_client {C} (c : C) (w : world C) : world C :=
  World (files w) (dumped w) (sent w) (session_token w) c (clock w).

(** ** Computations *)

Definition Py (C A : Type) : Type := world C → result A * world C.

Definition ret {C A} (a : A) : Py C A := fun w => (Ok a, w).

Definition raise {C A} (e : exn) : Py C A := fun w => (Raise e, w).

Definition bind {C A B} (m : Py C A) (k : A → Py C B) : Py C B :=
  fun w =>
    match m w with
    | (Ok a, w') => k a w'
    | (Raise e, w') => (Raise e, w')
    end.

Definition lift {C A} (r : result A) : Py C A := fun w => (r, w).

(** [try: body except <classes>: handler] *)
Definition try_except {C A} (body : Py C A) (classes : exn → bool)
    (handler : Py C A) : Py C A :=
  fun w =>
    match body w with
    | (Ok a, w') => (Ok a, w')
    | (Raise e, w') => if classes e then handler w' else (Raise e, w')
    end.

Notation "'let*' x := m 'in' k" := (bind m (fun x => k))
  (at level 10, x pattern, m at level 100, k at level 200).

Section Store.

Context {C : Type}.

(** [open(file_name, "r", encoding="utf-8")] and the text behind it *)
Definition open_r (file_name : string) : Py C document :=
  fun w =>
    match files w !! file_name with
    | Some f => (Ok f, w)
    | None => (Raise FileNotFoundError, w)
    end.

(** [json.load(f)] *)
Definition json_load (f : document) : Py C dict :=
  match f with
  | Doc m => ret m
  | Malformed _ => raise JSONDecodeError
  end.

(** [open(file_name, "w", encoding="utf-8")]: the file is created or cut to
    length zero, which is not a JSON text *)
Definition open_w (file_name : string) : Py C unit :=
  fun w => (Ok tt, set_files (<[file_name := Malformed ""]> (files w)) w).

(** [json.dump(obj, f)] into the file just opened *)
Definition json_dump (obj : dict) (file_name : string) : Py C unit :=
  fun w =>
    (Ok tt, set_dumped (dumped w ++ [(file_name, obj)])
              (set_files (<[file_name := Doc obj]> (files w)) w)).

(** [os.remove(file_name)] *)
Definition os_remove (file_name : string) : Py C unit :=
  fun w =>
    match files w !! file_name with
    | Some _ => (Ok tt, set_files (delete file_name (files w)) w)
    | None => (Raise FileNotFoundError, w)
    end.

(** [x or {}] *)
Definition or_empty (x : option dict) : dict :=
  match x with
  | Some d => if truthy d then d else ∅
  | None => ∅
  end.

Definition __read_file__ (file_name : string) : Py C (option dict) :=
  try_except
    (let* f := open_r file_name in
     let* token := json_load f in
     ret (Some token))
    (fun e => match e with
              | FileNotFoundError | JSONDecodeError => true
              | _ => false
              end)
    (ret None).

Definition __write_file__ (data : dict) (file_name : string) : Py C unit :=
  let* r := __read_file__ file_name in
  let existing_data := dict_update (or_empty r) data in
  let* _ := open_w file_name in
  json_dump existing_data file_name.

Definition __del_file__ (file_name : string) : Py C unit :=
  try_except (os_remove file_name) is_OSError (ret tt).

End Store.

(** ** The store over files of bytes *)

Module Raw.

Definition value (b : Byte.byte) : Z := Z.of_N (Byte.to_N b).

Definition in_range (lo hi : Z) (b : Byte.byte) : bool :=
  (lo <=? value b)%Z && (value b <=? hi)%Z.

(** Strict UTF-8, as Python's codec reads it: no overlong form, no
    surrogate, nothing above U+10FFFF. *)
Fixpoint utf8_valid (bs : list Byte.byte) : bool :=
  match bs with
  | [] => true
  | b :: rest =>
      if in_range 0x00 0x7F b then utf8_valid rest
      else if in_range 0xC2 0xDF b then
        match rest with
        | c1 :: rest' => in_range 0x80 0xBF c1 && utf8_valid rest'
        | _ => false
        end
      else if in_range 0xE0 0xEF b then
        match rest with
        | c1 :: c2 :: rest' =>
            (if (value b =? 0xE0)%Z then in_range 0xA0 0xBF c1
             else if (value b =? 0xED)%Z then in_range 0x80 0x9F c1
             else in_range 0x80 0xBF c1)
            && in_range 0x80 0xBF c2 && utf8_valid rest'
        | _ => false
        end
      else if in_range 0xF0 0xF4 b then
        match rest with
        | c1 :: c2 :: c3 :: rest' =>
            (if (value b =? 0xF0)%Z then in_range 0x90 0xBF c1
             else if (value b =? 0xF4)%Z then in_range 0x80 0x8F c1
             else in_range 0x80 0xBF c1)
            && in_range 0x80 0xBF c2 && in_range 0x80 0xBF c3
            && utf8_valid rest'
        | _ => false
        end
      else false
  end.

Section Codec.

(** [json.loads] of a decoded text, the text given by its UTF-8 bytes: a
    value ([None] is [JNull]), [JSONDecodeError], or another error, such as
    [RecursionError] on a text nested too deep. *)
Variable json_loads : list Byte.byte → result json.

(** The bytes that [json.dump] writes. *)
Variable json_dumps : json → list Byte.byte.

(** [open(file_name, "r", encoding="utf-8")] *)
Definition open_r (disk : gmap string (list Byte.byte)) (file_name : string)
    : result (list Byte.byte) :=
  match disk !! file_name with
  | Some f => Ok f
  | None => Raise FileNotFoundError
  end.

(** [f.read()]: the bytes are decoded, strictly *)
Definition read (f : list Byte.byte) : result (list Byte.byte) :=
  if utf8_valid f then Ok f else Raise UnicodeDecodeError.

(** [json.load(f)] *)
Definition json_load (f : list Byte.byte) : result json :=
  match read f with
  | Ok s => json_loads s
  | Raise e => Raise e
  end.

Definition __read_file__ (disk : gmap string (list Byte.byte)) (file_name : string)
    : result json :=
  match
    match open_r disk file_name with
    | Ok f => json_load f
    | Raise e => Raise e
    end
  with
  | Ok token => Ok token
  | Raise FileNotFoundError | Raise JSONDecodeError => Ok JNull
  | Raise e => Raise e
  end.

(** The [update] of a value that is not a dictionary is an
    [AttributeError]. *)
Definition __write_file__ (data : dict) (disk : gmap string (list Byte.byte))
    (file_name : string) : result (gmap string (list Byte.byte)) :=
  match __read_file__ disk file_name with
  | Raise e => Raise e
  | Ok r =>
      match (if truthy_value r then r else JObj ∅) with
      | JObj existing_data =>
          Ok (<[file_name := json_dumps (JObj (dict_update existing_data data))]> disk)
      | _ => Raise AttributeError
      end
  end.

Definition __del_file__ (disk : gmap string (list Byte.byte)) (file_name : string)
    : gmap string (list Byte.byte) :=
  match disk !! file_name with
  | Some _ => delete file_name disk
  | None => disk
  end.

(** The document that a file of bytes is, when it is one: text that parses
    to an object, or text that [json.loads] rejects. *)
Definition document_of (f : list Byte.byte) : option document :=
  if utf8_valid f then
    match json_loads f with
    | Ok (JObj m) => Some (Doc m)
    | Raise JSONDecodeError => Some (Malformed (String.string_of_list_byte f))
    | _ => None
    end
  else None.

End Codec.

End Raw.

(** The mapping a file holds, if it holds one: what [__read_file__] makes
    of the file system. *)
Definition loaded (f : gmap string document) (file_name : string) : option dict :=
  match f !! file_name with
  | Some (Doc m) => Some m
  | _ => None
  end.

(** ** requests_oauthlib.OAuth2Session *)

Section Session.

Context {C : Type} `{OAuth2Client C}.

(** The provider: its answer to a request, given the requests it has
    already received; [Raise] is a transport failure. *)
Variable provider : list http_request → http_request → result http_response.

(** [requests.Session.request]: the request goes out. *)
Definition http_send (req : http_request) : Py C http_response :=
  fun w => (provider (sent w) req, set_sent (sent w ++ [req]) w).

(** [response.json()] *)
Definition response_json (r : http_response) : Py C dict :=
  match text r with
  | Doc m => ret m
  | Malformed _ => raise JSONDecodeError
  end.

(** The [token] setter: [self._client.token = value], then
    [self._client.populate_token_attributes(value)], whose first statement,
    ['access_token' in value], is a [TypeError] on [None]. *)
Definition token_setter (value : option dict) : Py C unit :=
  fun w =>
    let w1 := set_session_token value w in
    match value with
    | None => (Raise TypeError, w1)
    | Some t =>
        match populate_token_attributes (client w1) t (clock w1) with
        | Ok c => (Ok tt, set_client c w1)
        | Raise e => (Raise e, w1)
        end
    end.

(** [self._client.parse_request_body_response(r.text, scope=self.scope)] *)
Definition parse_request_body_response (body : document) : Py C dict :=
  fun w =>
    match parse_token_response body (clock w) with
    | Raise e => (Raise e, w)
    | Ok token =>
        let w1 := set_session_token (Some token) w in
        match populate_token_attributes (client w1) token (clock w1) with
        | Ok c => (Ok token, set_client c w1)
        | Raise e => (Raise e, w1)
        end
    end.

(** [OAuth2Session.refresh_token(token_url, auth=auth)]; it is only reached
    with a session token that is a non-empty dictionary. *)
Definition refresh_token (token_url : string) (auth : option (string * string))
    : Py C dict :=
  fun w =>
    match session_token w with
    | None => (Raise TypeError, w)
    | Some old =>
        let refresh_token := old !! "refresh_token" in
        let body := prepare_refresh_body (client w) refresh_token in
        (let* r := http_send (HttpRequest "POST" token_url [] auth body) in
         let* token := parse_request_body_response (text r) in
         let token :=
           match token !! "refresh_token" with
           | Some _ => token
           | None => <["refresh_token" := default JNull refresh_token]> token
           end in
         fun w' => (Ok token, set_session_token (Some token) w')) w
    end.

(** The [auth] of the refresh call inside [request]: the caller's, or basic
    authentication with the client's credentials when both are given and
    the caller passed none. *)
Definition refresh_auth (client_id client_secret : option string)
    (auth : option (string * string)) : option (string * string) :=
  match client_id, client_secret, auth with
  | Some i, Some s, None =>
      if truthy_str i && truthy_str s then Some (i, s) else None
  | _, _, _ => auth
  end.

(** [OAuth2Session.request(method, url, data=..., client_id=...,
    client_secret=..., auth=...)] of a session built with an
    [auto_refresh_url] and a [token_updater]. *)
Definition request (auto_refresh_url : string) (token_updater : dict → Py C dict)
    (method url : string) (data : dict) (client_id client_secret : option string)
    (auth : option (string * string)) (withhold_token : bool)
    : Py C http_response :=
  fun w =>
    let req := HttpRequest method url [] auth data in
    match session_token w with
    | Some token =>
        if truthy token && negb withhold_token then
          match add_token (client w) token (clock w) req with
          | Ok req' => http_send req' w
          | Raise TokenExpiredError =>
              (let* token :=
                 refresh_token auto_refresh_url
                   (refresh_auth client_id client_secret auth) in
               let* _ := token_updater token in
               fun w' =>
                 match add_token (client w') token (clock w') (set_auth None req) with
                 | Ok req' => http_send req' w'
                 | Raise e => (Raise e, w')
                 end) w
          | Raise e => (Raise e, w)
          end
        else http_send req w
    | None => http_send req w
    end.

(** [OAuth2Session.fetch_token(token_url, code=code,
    client_secret=client_secret)] of a session built with [client_id] and
    [redirect_uri].  The body is prepared, [self.token = {}] is run, and the
    request goes out through [self.request]: the session token being empty
    there, no token is added and nothing is refreshed. *)
Definition fetch_token (client_id redirect_uri : string)
    (token_url code client_secret : string) : Py C dict :=
  if truthy_str code then
    fun w =>
      let body := prepare_request_body (client w) code redirect_uri in
      let auth :=
        if truthy_str client_id then Some (client_id, client_secret) else None in
      (let* _ := token_setter (Some ∅) in
       let* r := http_send (HttpRequest "POST" token_url [] auth body) in
       let* token := parse_request_body_response (text r) in
       let* _ := token_setter (Some token) in
       ret token) w
  else raise ValueError.

(** ** The program *)

Variables CLIENT_ID CLIENT_SECRET REDIRECT_URI TOKEN_FILE INFO_FILE : string.

Definition API_BASE_URL : string := "https://api.login.yahoo.com".

(** [urllib.parse.urljoin] of a bare origin and an absolute path *)
Definition urljoin (base path : string) : string := base ++ path.

Definition __refresh_access_token__ (new_token : dict) : Py C dict :=
  let* _ := __write_file__ new_token TOKEN_FILE in
  ret new_token.

(** The methods of the module-level [oauth] object. *)
Definition oauth_request :=
  request (urljoin API_BASE_URL "/oauth2/get_token") __refresh_access_token__.

Definition oauth_fetch_token := fetch_token CLIENT_ID REDIRECT_URI.

Definition exchange_authorization_code (code : string) : Py C dict :=
  let* token :=
    oauth_fetch_token (urljoin API_BASE_URL "/oauth2/get_token") code CLIENT_SECRET in
  let* _ := __write_file__ token TOKEN_FILE in
  ret token.

Definition get_userinfo : Py C dict :=
  let* token := __read_file__ TOKEN_FILE in
  let* _ := token_setter token in
  let* response :=
    oauth_request "POST" (urljoin API_BASE_URL "/openid/v1/userinfo") ∅
      (Some CLIENT_ID) (Some CLIENT_SECRET) None false in
  if (status_code response =? 200)%Z then
    let* userinfo := response_json response in
    let* _ := __write_file__ userinfo INFO_FILE in
    ret userinfo
  else ret ∅.

(** [token["refresh_token"]] *)
Definition subscript (token : option dict) (key : string) : Py C json :=
  match token with
  | None => raise TypeError
  | Some d =>
      match d !! key with
      | Some v => ret v
      | None => raise (KeyError key)
      end
  end.

Definition revoke_grant : Py C bool :=
  let* token := __read_file__ TOKEN_FILE in
  let* refresh := subscript token "refresh_token" in
  let* response :=
    oauth_request "POST" (urljoin API_BASE_URL "/oauth2/revoke")
      {[ "token" := refresh; "token_type_hint" := JStr "refresh_token" ]}
      None None (Some (CLIENT_ID, CLIENT_SECRET)) false in
  if (status_code response =? 200)%Z then
    let* _ := __del_file__ TOKEN_FILE in
    ret true
  else ret false.

End Session.

(** [not oauth.token]: the session holds no token, as in a process that has
    just started ([OAuth2Session.__init__] leaves [{}]). *)
Definition no_session_token {C} (w : world C) : bool :=
  match session_token w with
  | Some t => negb (truthy t)
  | None => true
  end.

(** A computation that leaves the files, and the log of dumps, as they
    were. *)
Definition preserves_store {C A} (m : Py C A) : Prop :=
  ∀ w, files (snd (m w)) = files w ∧ dumped (snd (m w)) = dumped w.

(** ** The merge of the specification *)

(** A deep merge, as the specification's merge law words it: where both
    sides hold an object under a key the objects are merged recursively,
    elsewhere the newer value wins. *)
Fixpoint deep_merge_value (old new : json) : json :=
  match old, new with
  | JObj m1, JObj m2 =>
      JObj (union_with (λ a b, Some (deep_merge_value a b)) m1 m2)
  | _, _ => new
  end.

Definition deep_merge (d1 d2 : dict) : dict :=
  union_with (λ a b, Some (deep_merge_value a b)) d1 d2.

(** ** A concrete client and provider

    A small bearer-token client and a scripted provider, on which the
    program is run below.  The client stands in for oauthlib's
    [WebApplicationClient] on tokens whose [access_token] is a string and
    whose lifetimes are JSON integers or strings of decimal digits. *)

Module Demo.

Record bearer : Type := Bearer {
  access_token : option json;
  expires_at : option Z
}.

(** The value of a string of decimal digits. *)
Fixpoint digits (s : string) (acc : Z) : option Z :=
  match s with
  | EmptyString => Some acc
  | String c rest =>
      let n := (Z.of_nat (Ascii.nat_of_ascii c) - 48)%Z in
      if (0 <=? n)%Z && (n <=? 9)%Z then digits rest (10 * acc + n)%Z else None
  end.

(** [int(v)] *)
Definition py_int (v : json) : result Z :=
  match v with
  | JNum n => Ok n
  | JBool b => Ok (if b then 1 else 0)%Z
  | JStr EmptyString => Raise ValueError
  | JStr s => match digits s 0 with Some n => Ok n | None => Raise ValueError end
  | JNull | JArr _ | JObj _ => Raise TypeError
  end.

(** [scope.split(" ")] *)
Fixpoint split_spaces (s current : string) : list string :=
  match s with
  | EmptyString => [current]
  | String c rest =>
      if Ascii.eqb c (Ascii.ascii_of_nat 32) then current :: split_spaces rest ""
      else split_spaces rest (current ++ String c "")
  end.

Definition populate (c : bearer) (response : dict) (now : Z) : result bearer :=
  let a :=
    match response !! "access_token" with
    | Some v => Some v
    | None => access_token c
    end in
  let after_expires_in :=
    match response !! "expires_in" with
    | None => Ok (expires_at c)
    | Some v =>
        match py_int v with
        | Ok n => Ok (Some (now + n))
        | Raise e => Raise e
        end
    end in
  match after_expires_in with
  | Raise e => Raise e
  | Ok e =>
      match response !! "expires_at" with
      | None => Ok (Bearer a e)
      | Some v =>
          match py_int v with
          | Ok n => Ok (Bearer a (Some n))
          | Raise _ => Ok (Bearer a None)
          end
      end
  end.

Definition expired (c : bearer) (now : Z) : bool :=
  match expires_at c with
  | Some e => negb (e =? 0)%Z && (e <? now)%Z
  | None => false
  end.

Definition attach (c : bearer) (token : dict) (now : Z) (req : http_request)
    : result http_request :=
  match access_token c with
  | Some (JStr a) =>
      if truthy_str a then
        if expired c now then Raise TokenExpiredError
        else Ok (set_headers (("Authorization", "Bearer " ++ a) :: headers req) req)
      else Raise ValueError
  | _ => Raise ValueError
  end.

Definition code_body (c : bearer) (code redirect_uri : string) : dict :=
  {[ "grant_type" := JStr "authorization_code";
     "code" := JStr code;
     "redirect_uri" := JStr redirect_uri ]}.

Definition refresh_body (c : bearer) (refresh : option json) : dict :=
  {[ "grant_type" := JStr "refresh_token";
     "refresh_token" := default JNull refresh;
     "scope" := JStr "openid email profile" ]}.

(** The returned scope as a list. *)
Definition with_scope_list (m : dict) : dict :=
  match m !! "scope" with
  | Some (JStr scope) => <["scope" := JArr (JStr <$> split_spaces scope "")]> m
  | _ => m
  end.

(** The derived expiry; an [expires_in] that is [None], zero or empty is
    dropped. *)
Definition with_expiry (m : dict) (now : Z) : result dict :=
  match m !! "expires_in" with
  | None => Ok m
  | Some v =>
      if truthy_value v then
        match py_int v with
        | Ok n => Ok (<["expires_at" := JNum (now + n)]> m)
        | Raise e => Raise e
        end
      else Ok (delete "expires_in" m)
  end.

Definition parse (body : document) (now : Z) : result dict :=
  match body with
  | Malformed _ => Raise (OAuth2Error "missing_token")
  | Doc m =>
      match with_expiry (with_scope_list m) now with
      | Raise e => Raise e
      | Ok token =>
          match token !! "error", token !! "access_token" with
          | Some (JStr e), _ => Raise (OAuth2Error e)
          | Some _, _ => Raise (OAuth2Error "")
          | None, None => Raise (OAuth2Error "missing_token")
          | None, Some _ => Ok token
          end
      end
  end.

#[global] Instance bearer_client : OAuth2Client bearer := {|
  populate_token_attributes := populate;
  add_token := attach;
  prepare_request_body := code_body;
  prepare_refresh_body := refresh_body;
  parse_token_response := parse
|}.

Definition token_url : string := "https://api.login.yahoo.com/oauth2/get_token".

(** The token endpoint answers [token_answer]; every other endpoint
    answers [answer]. *)
Definition provider (token_answer answer : http_response)
    (history : list http_request) (req : http_request) : result http_response :=
  if String.eqb (url req) token_url then Ok token_answer else Ok answer.

(** A provider whose connection fails. *)
Definition unreachable (history : list http_request) (req : http_request)
    : result http_response :=
  Raise RequestException.

Definition issued : dict :=
  {[ "access_token" := JStr "A"; "refresh_token" := JStr "R";
     "expires_in" := JNum 3600; "token_type" := JStr "bearer" ]}.

Definition reissued : dict :=
  {[ "access_token" := JStr "B"; "expires_in" := JNum 3600 ]}.

(** A stored token: issued at time 0 and kept with its scope. *)
Definition kept : dict :=
  {[ "access_token" := JStr "A"; "refresh_token" := JStr "R";
     "expires_in" := JNum 3600; "expires_at" := JNum 3600;
     "scope" := JStr "openid email profile" ]}.

Definition claims : dict :=
  {[ "sub" := JStr "123"; "email" := JStr "x@y.com" ]}.

(** A process that has just started, at time [now], over the files [f]. *)
Definition start (f : gmap string document) (now : Z) : world bearer :=
  World f [] [] (Some ∅) (Bearer None None) now.

(** The same process once the stored token [kept] has been loaded into the
    session. *)
Definition loaded_session (f : gmap string document) (now : Z) : world bearer :=
  World f [] [] (Some kept) (Bearer (Some (JStr "A")) (Some 3600)) now.

Definition answer (status : Z) (m : dict) : http_response :=
  HttpResponse status (Doc m).

Definition client_id : string := "id".
Definition client_secret : string := "secret".
Definition redirect_uri : string := "https://app.example/callback".
Definition token_file : string := "token.json".
Definition info_file : string := "info.json".

Definition userinfo_url : string := "https://api.login.yahoo.com/openid/v1/userinfo".

(** Two mappings that hold an object under the same key. *)
Definition nested1 : dict := {[ "a" := JObj {[ "x" := JNum 1 ]} ]}.
Definition nested2 : dict := {[ "a" := JObj {[ "y" := JNum 2 ]} ]}.

End Demo.

(** * Properties *)

(** ** Dictionaries *)

Lemma size_zero_empty (d : dict) : size d = 0%nat → d = ∅.
Proof. apply map_size_empty_inv. Qed.

Lemma or_empty_Some (d : dict) : or_empty (Some d) = d.
Proof.
  unfold or_empty, truthy.
  destruct (Nat.eqb_spec (size d) 0) as [E | _]; simpl; [| reflexivity].
  symmetry. by apply size_zero_empty.
Qed.

Lemma dict_update_new (d other : dict) k v :
  other !! k = Some v → dict_update d other !! k = Some v.
Proof. intros E. unfold dict_update. by apply lookup_union_Some_l. Qed.

Lemma dict_update_old (d other : dict) k :
  other !! k = None → dict_update d other !! k = d !! k.
Proof. intros E. unfold dict_update. by apply lookup_union_r. Qed.

Lemma dict_update_empty (other : dict) : dict_update ∅ other = other.
Proof. unfold dict_update. apply (right_id_L ∅ (∪)). Qed.

(** ** The persistent store *)

Section StoreFacts.

Context {C : Type}.
Implicit Types w : world C.

Lemma read_file_run file_name w :
  __read_file__ file_name w = (Ok (loaded (files w) file_name), w).
Proof.
  unfold __read_file__, try_except, bind, open_r, loaded.
  destruct (files w !! file_name) as [[m | raw] |]; reflexivity.
Qed.

Lemma write_file_run data file_name w :
  let merged := dict_update (or_empty (loaded (files w) file_name)) data in
  __write_file__ data file_name w =
    (Ok tt, set_dumped (dumped w ++ [(file_name, merged)])
              (set_files (<[file_name := Doc merged]> (files w)) w)).
Proof.
  unfold __write_file__, bind. rewrite read_file_run.
  unfold open_w, json_dump, set_dumped, set_files. simpl.
  by rewrite insert_insert_eq.
Qed.

Lemma del_file_run file_name w :
  __del_file__ file_name w = (Ok tt, set_files (delete file_name (files w)) w).
Proof.
  unfold __del_file__, try_except, os_remove.
  destruct (files w !! file_name) eqn:E; [reflexivity |]. simpl.
  rewrite delete_id by done. by destruct w.
Qed.

Lemma loaded_insert f file_name m :
  loaded (<[file_name := Doc m]> f) file_name = Some m.
Proof. unfold loaded. by rewrite lookup_insert_eq. Qed.

Lemma loaded_insert_ne f a b d : a ≠ b → loaded (<[a := d]> f) b = loaded f b.
Proof. intros N. unfold loaded. by rewrite lookup_insert_ne. Qed.

End StoreFacts.

(** ** The store over bytes *)

Section RawStore.

Variable json_loads : list Byte.byte → result json.
Variable json_dumps : json → list Byte.byte.
Implicit Types disk : gmap string (list Byte.byte).

(** On a file that is a document the store over bytes reads what the store
    over documents reads: the mapping of an object, [None] for a text that
    [json.loads] rejects. *)
Lemma raw_read_document disk file_name f doc :
  disk !! file_name = Some f →
  Raw.document_of json_loads f = Some doc →
  Raw.__read_file__ json_loads disk file_name
  = Ok (match doc with Doc m => JObj m | Malformed _ => JNull end).
Proof.
  intros Hfile Hdoc.
  unfold Raw.__read_file__, Raw.open_r, Raw.json_load, Raw.read.
  rewrite Hfile. unfold Raw.document_of in Hdoc.
  destruct (Raw.utf8_valid f); [| done].
  destruct (json_loads f) as [[] | []]; by simplify_eq.
Qed.

Lemma raw_read_absent disk file_name :
  disk !! file_name = None →
  Raw.__read_file__ json_loads disk file_name = Ok JNull.
Proof.
  intros Hfile. unfold Raw.__read_file__, Raw.open_r. by rewrite Hfile.
Qed.

(** Likewise for a write: over a document it dumps the merge that the store
    over documents dumps. *)
Lemma raw_write_document disk file_name f doc (d : dict) :
  disk !! file_name = Some f →
  Raw.document_of json_loads f = Some doc →
  Raw.__write_file__ json_loads json_dumps d disk file_name
  = Ok (<[file_name :=
            json_dumps
              (JObj (dict_update
                       (or_empty (match doc with
                                  | Doc m => Some m
                                  | Malformed _ => None
                                  end)) d))]> disk).
Proof.
  intros Hfile Hdoc. unfold Raw.__write_file__.
  rewrite (raw_read_document disk file_name f doc Hfile Hdoc).
  destruct doc as [m | raw]; simpl; [| done].
  unfold or_empty. by destruct (truthy m).
Qed.

(** A text nested too deep: the [RecursionError] of [json.loads] is not
    caught either. *)
Lemma raw_read_too_deep disk file_name f :
  disk !! file_name = Some f →
  Raw.utf8_valid f = true →
  json_loads f = Raise RecursionError →
  Raw.__read_file__ json_loads disk file_name = Raise RecursionError.
Proof.
  intros Hfile Hvalid Hdeep.
  unfold Raw.__read_file__, Raw.open_r, Raw.json_load, Raw.read.
  by rewrite Hfile, Hvalid, Hdeep.
Qed.

(** A file whose value is not a dictionary: [read] returns the value, and a
    write over it fails in [update] when the value is truthy. *)
Lemma raw_write_over_list disk file_name f item items (d : dict) :
  disk !! file_name = Some f →
  Raw.utf8_valid f = true →
  json_loads f = Ok (JArr (item :: items)) →
  Raw.__read_file__ json_loads disk file_name = Ok (JArr (item :: items))
  ∧ Raw.__write_file__ json_loads json_dumps d disk file_name
    = Raise AttributeError.
Proof.
  intros Hfile Hvalid Hlist.
  assert (Hread : Raw.__read_file__ json_loads disk file_name
                  = Ok (JArr (item :: items))).
  { unfold Raw.__read_file__, Raw.open_r, Raw.json_load, Raw.read.
    by rewrite Hfile, Hvalid, Hlist. }
  split; [done |]. unfold Raw.__write_file__. by rewrite Hread.
Qed.

(** C7, at the failing input: on a file whose content is the single byte
    0xFF, which is not UTF-8 and so not JSON, [__read_file__] does not
    return [None]: the decoding raises [UnicodeDecodeError], which the
    handler for [FileNotFoundError] and [JSONDecodeError] lets through,
    whatever [json.loads] is. *)
Theorem read_file_undecodable_raises file_name :
  Raw.__read_file__ json_loads {[ file_name := [Byte.xff] ]} file_name
  = Raise UnicodeDecodeError.
Proof.
  unfold Raw.__read_file__, Raw.open_r. rewrite lookup_singleton_eq.
  reflexivity.
Qed.

(** C9, at the failing input: over a file whose content is the single byte
    0xFF a write does not succeed: the [UnicodeDecodeError] of the read
    leaves [__write_file__] before the file is opened for writing, whatever
    the data and the codec are. *)
Theorem write_file_over_undecodable_raises file_name (d : dict) :
  Raw.__write_file__ json_loads json_dumps d {[ file_name := [Byte.xff] ]} file_name
  = Raise UnicodeDecodeError.
Proof.
  unfold Raw.__write_file__, Raw.__read_file__, Raw.open_r.
  rewrite lookup_singleton_eq. reflexivity.
Qed.

End RawStore.

Section StoreClaims.

Context {C : Type}.
Implicit Types w : world C.

(** C1 (as amended): on a store that holds nothing under [file_name],
    [write(name, d1)] then [write(name, d2)] leaves the shallow merge of
    [d1] and [d2]: a top-level key of [d2] overwrites the same key of [d1]
    with its whole value, the other keys of [d1] stay, and a key of neither
    is absent. *)
Theorem write_write_shallow_merge file_name (d1 d2 : dict) w :
  files w !! file_name = None →
  let run :=
    (let* _ := __write_file__ d1 file_name in __write_file__ d2 file_name) w in
  fst run = Ok tt
  ∧ files (snd run) !! file_name = Some (Doc (dict_update d1 d2))
  ∧ __read_file__ file_name (snd run) = (Ok (Some (dict_update d1 d2)), snd run)
  ∧ (∀ k v, d2 !! k = Some v → dict_update d1 d2 !! k = Some v)
  ∧ (∀ k, d2 !! k = None → dict_update d1 d2 !! k = d1 !! k)
  ∧ (∀ k, d1 !! k = None → d2 !! k = None → dict_update d1 d2 !! k = None).
Proof.
  intros Habsent run.
  assert (Hrun : run =
    (Ok tt, set_dumped ((dumped w ++ [(file_name, d1)]) ++ [(file_name, dict_update d1 d2)])
              (set_files (<[file_name := Doc (dict_update d1 d2)]> (files w)) w))).
  { subst run. unfold bind. rewrite write_file_run. cbv zeta.
    rewrite write_file_run. cbv zeta. simpl.
    rewrite loaded_insert, or_empty_Some.
    unfold loaded. rewrite Habsent. simpl.
    rewrite dict_update_empty, insert_insert_eq. reflexivity. }
  rewrite Hrun. simpl. repeat split.
  - by rewrite lookup_insert_eq.
  - rewrite read_file_run. simpl. by rewrite loaded_insert.
  - intros k v. apply dict_update_new.
  - intros k. apply dict_update_old.
  - intros k E1 E2. by rewrite dict_update_old.
Qed.

(** C8: [delete(name)] on a resource that does not exist changes nothing
    and does not raise; from any world, a delete succeeds, a second delete
    succeeds as well and changes nothing, and the resource is absent. *)
Theorem del_file_idempotent file_name w w' :
  files w !! file_name = None →
  __del_file__ file_name w = (Ok tt, w)
  ∧ fst (__del_file__ file_name w') = Ok tt
  ∧ __del_file__ file_name (snd (__del_file__ file_name w'))
      = (Ok tt, snd (__del_file__ file_name w'))
  ∧ files (snd (__del_file__ file_name w')) !! file_name = None.
Proof.
  intros Habsent. repeat split.
  - rewrite del_file_run, delete_id by done. by destruct w.
  - by rewrite del_file_run.
  - rewrite !del_file_run. simpl. unfold set_files. simpl.
    by rewrite delete_delete_eq.
  - rewrite del_file_run. simpl. apply lookup_delete_eq.
Qed.

End StoreClaims.

(** ** The session *)

Section SessionFacts.

Context {C : Type} `{OAuth2Client C}.
Variable provider : list http_request → http_request → result http_response.
Implicit Types w : world C.

Lemma preserves_ret {A} (a : A) : preserves_store (ret (C:=C) a).
Proof. by intros w. Qed.

Lemma preserves_raise {A} e : preserves_store (raise (C:=C) (A:=A) e).
Proof. by intros w. Qed.

Lemma preserves_bind {A B} (m : Py C A) (k : A → Py C B) :
  preserves_store m → (∀ a, preserves_store (k a)) → preserves_store (bind m k).
Proof.
  intros Hm Hk w. unfold bind. specialize (Hm w).
  destruct (m w) as [[a | e] w1]; simpl in *; [| done].
  destruct (Hk a w1) as [-> ->]. done.
Qed.

Lemma preserves_http_send req : preserves_store (http_send (C:=C) provider req).
Proof. by intros w. Qed.

Lemma preserves_token_setter value : preserves_store (token_setter value).
Proof.
  intros w. unfold token_setter. destruct value as [t |]; [| done].
  by destruct (populate_token_attributes _ _ _).
Qed.

Lemma preserves_parse body : preserves_store (parse_request_body_response body).
Proof.
  intros w. unfold parse_request_body_response.
  destruct (parse_token_response _ _); [| done].
  by destruct (populate_token_attributes _ _ _).
Qed.

Lemma preserves_refresh_token token_url auth :
  preserves_store (refresh_token provider token_url auth).
Proof.
  intros w. unfold refresh_token. destruct (session_token w); [| done].
  apply preserves_bind; [apply preserves_http_send |]. intros r.
  apply preserves_bind; [apply preserves_parse |]. by intros token w'.
Qed.

Lemma preserves_fetch_token client_id redirect_uri token_url code client_secret :
  preserves_store
    (fetch_token provider client_id redirect_uri token_url code client_secret).
Proof.
  intros w. unfold fetch_token. destruct (truthy_str code); [| done].
  apply preserves_bind; [apply preserves_token_setter |]. intros _.
  apply preserves_bind; [apply preserves_http_send |]. intros r.
  apply preserves_bind; [apply preserves_parse |]. intros token.
  apply preserves_bind; [apply preserves_token_setter |]. intros _.
  apply preserves_ret.
Qed.

(** With no token in the session, [request] only sends the request. *)
Lemma request_without_token url' updater method url data cid csec auth w :
  no_session_token w = true →
  request provider url' updater method url data cid csec auth false w
    = http_send provider (HttpRequest method url [] auth data) w.
Proof.
  unfold no_session_token, request. destruct (session_token w) as [t |]; [| done].
  intros E. apply negb_true_iff in E. by rewrite E.
Qed.

End SessionFacts.

(** ** The program *)

Section ProgramClaims.

Context {C : Type} `{OAuth2Client C}.
Variable provider : list http_request → http_request → result http_response.
Variables CLIENT_ID CLIENT_SECRET REDIRECT_URI TOKEN_FILE INFO_FILE : string.
Implicit Types w : world C.

Let token_endpoint : string := urljoin API_BASE_URL "/oauth2/get_token".

(** C5: when the code exchange succeeds with the token record [token],
    [exchangeCode] returns that record and has merge-written it to the token
    file, once: every field of the record is stored with its value, and over
    a token file that held no mapping the stored record is exactly
    [token]. *)
Theorem exchange_persists_record code w w1 (token : dict) :
  oauth_fetch_token provider CLIENT_ID REDIRECT_URI token_endpoint code CLIENT_SECRET w
    = (Ok token, w1) →
  let run :=
    exchange_authorization_code provider CLIENT_ID CLIENT_SECRET REDIRECT_URI
      TOKEN_FILE code w in
  let stored := dict_update (or_empty (loaded (files w) TOKEN_FILE)) token in
  fst run = Ok token
  ∧ files (snd run) = <[TOKEN_FILE := Doc stored]> (files w)
  ∧ __read_file__ TOKEN_FILE (snd run) = (Ok (Some stored), snd run)
  ∧ dumped (snd run) = (dumped w ++ [(TOKEN_FILE, stored)])%list
  ∧ (∀ k v, token !! k = Some v → stored !! k = Some v)
  ∧ (or_empty (loaded (files w) TOKEN_FILE) = ∅ → stored = token).
Proof.
  intros Hfetch run stored.
  destruct (preserves_fetch_token provider CLIENT_ID REDIRECT_URI token_endpoint
              code CLIENT_SECRET w) as [Hfiles Hdumped].
  unfold oauth_fetch_token in Hfetch. rewrite Hfetch in Hfiles, Hdumped.
  simpl in Hfiles, Hdumped.
  assert (Hrun : run =
    (Ok token, set_dumped (dumped w1 ++ [(TOKEN_FILE, stored)])
                 (set_files (<[TOKEN_FILE := Doc stored]> (files w1)) w1))).
  { subst run stored. unfold exchange_authorization_code, bind, oauth_fetch_token.
    fold token_endpoint. rewrite Hfetch, write_file_run. cbv zeta.
    by rewrite Hfiles. }
  rewrite Hrun. simpl. rewrite Hfiles, Hdumped. repeat split.
  - rewrite read_file_run. simpl. by rewrite loaded_insert.
  - intros k v. apply dict_update_new.
  - intros E. subst stored. rewrite E. apply dict_update_empty.
Qed.

(** C10: when the code exchange fails, [exchangeCode] fails with the same
    error without having written anything: the files, the token file among
    them, are as they were, and nothing was dumped. *)
Theorem exchange_failure_keeps_store code w w1 e :
  oauth_fetch_token provider CLIENT_ID REDIRECT_URI token_endpoint code CLIENT_SECRET w
    = (Raise e, w1) →
  exchange_authorization_code provider CLIENT_ID CLIENT_SECRET REDIRECT_URI
    TOKEN_FILE code w = (Raise e, w1)
  ∧ files w1 = files w
  ∧ dumped w1 = dumped w.
Proof.
  intros Hfetch.
  destruct (preserves_fetch_token provider CLIENT_ID REDIRECT_URI token_endpoint
              code CLIENT_SECRET w) as [Hfiles Hdumped].
  unfold oauth_fetch_token in Hfetch. rewrite Hfetch in Hfiles, Hdumped.
  repeat split; [| done | done].
  unfold exchange_authorization_code, bind, oauth_fetch_token.
  fold token_endpoint. by rewrite Hfetch.
Qed.

(** C6: with no token record persisted (the token file is absent or does
    not parse), [getUserInfo] and [revokeGrant] fail before any request is
    sent, and [revokeGrant] also fails on a stored record without a
    [refresh_token]; the error the specification names NoTokenError is, in
    the program, the uncaught [TypeError] of using [None] as a token, or the
    [KeyError] of the missing key. *)
Theorem no_token_fails w w' (m : dict) :
  loaded (files w) TOKEN_FILE = None →
  files w' !! TOKEN_FILE = Some (Doc m) →
  m !! "refresh_token" = None →
  get_userinfo provider CLIENT_ID CLIENT_SECRET TOKEN_FILE INFO_FILE w
    = (Raise TypeError, set_session_token None w)
  ∧ revoke_grant provider CLIENT_ID CLIENT_SECRET TOKEN_FILE w = (Raise TypeError, w)
  ∧ revoke_grant provider CLIENT_ID CLIENT_SECRET TOKEN_FILE w'
      = (Raise (KeyError "refresh_token"), w').
Proof.
  intros Hnone Hdoc Hkey. repeat split.
  - unfold get_userinfo, bind. by rewrite read_file_run, Hnone.
  - unfold revoke_grant, bind. by rewrite read_file_run, Hnone.
  - unfold revoke_grant, bind. rewrite read_file_run. unfold loaded.
    rewrite Hdoc. simpl. by rewrite Hkey.
Qed.

(** C3 (as amended): in a process whose session holds no token, as one
    that has just started, with a persisted token
    record that has a [refresh_token], [revokeGrant] sends one request to
    the revocation endpoint; on the answer 200 it returns true and the token
    file is deleted, so that reading it returns absent, and on any other
    answer it returns false and the files are as they were. *)
Theorem revoke_grant_outcome w (m : dict) refresh r :
  files w !! TOKEN_FILE = Some (Doc m) →
  m !! "refresh_token" = Some refresh →
  no_session_token w = true →
  provider (sent w)
    (HttpRequest "POST" (urljoin API_BASE_URL "/oauth2/revoke") []
       (Some (CLIENT_ID, CLIENT_SECRET))
       {[ "token" := refresh; "token_type_hint" := JStr "refresh_token" ]})
    = Ok r →
  let run := revoke_grant provider CLIENT_ID CLIENT_SECRET TOKEN_FILE w in
  (status_code r = 200 →
     fst run = Ok true
     ∧ files (snd run) = delete TOKEN_FILE (files w)
     ∧ __read_file__ TOKEN_FILE (snd run) = (Ok None, snd run))
  ∧ (status_code r ≠ 200 → fst run = Ok false ∧ files (snd run) = files w).
Proof.
  intros Hdoc Hkey Hfresh Hanswer run.
  assert (Hrun : run =
    (let* response := (fun w0 : world C => (Ok r, set_sent (sent w ++ [
        HttpRequest "POST" (urljoin API_BASE_URL "/oauth2/revoke") []
          (Some (CLIENT_ID, CLIENT_SECRET))
          {[ "token" := refresh; "token_type_hint" := JStr "refresh_token" ]}]) w0)) in
     if (status_code response =? 200)%Z
     then let* _ := __del_file__ TOKEN_FILE in ret true
     else ret false) w).
  { subst run. unfold revoke_grant, bind at 1 2. rewrite read_file_run.
    unfold loaded. rewrite Hdoc. simpl. rewrite Hkey. simpl.
    unfold oauth_request, bind. rewrite request_without_token by done.
    unfold http_send. by rewrite Hanswer. }
  rewrite Hrun. unfold bind. split.
  - intros ->. simpl. rewrite del_file_run. simpl. repeat split.
    rewrite read_file_run. simpl. unfold loaded. by rewrite lookup_delete_eq.
  - intros Hne. apply Z.eqb_neq in Hne. rewrite Hne. done.
Qed.

(** What [request] does once the token has turned out stale and the
    refresh has returned [new_token]: the updater writes, then the request
    goes out with the new token. *)
Lemma oauth_request_refresh_run method url data cid csec auth w w1 (old new_token : dict) :
  session_token w = Some old →
  truthy old = true →
  add_token (client w) old (clock w) (HttpRequest method url [] auth data)
    = Raise TokenExpiredError →
  refresh_token provider token_endpoint (refresh_auth cid csec auth) w
    = (Ok new_token, w1) →
  oauth_request provider TOKEN_FILE method url data cid csec auth false w
    = (fun w2 : world C =>
         match add_token (client w2) new_token (clock w2)
                 (set_auth None (HttpRequest method url [] auth data)) with
         | Ok req' => http_send provider req' w2
         | Raise e => (Raise e, w2)
         end) (snd (__refresh_access_token__ TOKEN_FILE new_token w1)).
Proof.
  intros Htoken Htruthy Hstale Hrefresh.
  unfold oauth_request, request. fold token_endpoint.
  rewrite Htoken, Htruthy, Hstale. simpl. unfold bind at 1. rewrite Hrefresh.
  unfold bind at 1. unfold __refresh_access_token__, bind.
  rewrite write_file_run. reflexivity.
Qed.

(** [request] writes to no file but the token file. *)
Lemma oauth_request_other_files method url data cid csec auth withhold w name :
  name ≠ TOKEN_FILE →
  files (snd (oauth_request provider TOKEN_FILE method url data cid csec auth
                withhold w)) !! name = files w !! name.
Proof.
  intros Hname. unfold oauth_request, request.
  destruct (session_token w) as [token |]; [| done].
  destruct (truthy token && negb withhold); [| done].
  destruct (add_token (client w) token (clock w) _) as [req' | e]; [done |].
  destruct e; try done.
  unfold bind at 1.
  pose proof (preserves_refresh_token provider
                (urljoin API_BASE_URL "/oauth2/get_token")
                (refresh_auth cid csec auth) w) as [Hfiles _].
  destruct (refresh_token _ _ _ w) as [[new_token | e] w1]; simpl in Hfiles;
    [| simpl; by rewrite Hfiles].
  unfold bind at 1. unfold __refresh_access_token__, bind.
  rewrite write_file_run. cbv zeta. unfold ret. cbv beta iota.
  match goal with
  | |- context [add_token ?c ?t ?n ?q] => destruct (add_token c t n q)
  end; simpl; rewrite lookup_insert_ne by done; by rewrite Hfiles.
Qed.

(** C2: when a request finds the session token stale and the refresh call
    returns [new_token], the token is persisted to the token file exactly
    once, by a merge-write: one dump is added to the log, the file then holds
    the stored mapping updated with [new_token], every stored key that the
    refresh did not return is still there with its value, and every returned
    key holds the returned value. *)
Theorem refresh_persisted_once method url data cid csec auth w w1 (old new_token : dict) :
  session_token w = Some old →
  truthy old = true →
  add_token (client w) old (clock w) (HttpRequest method url [] auth data)
    = Raise TokenExpiredError →
  refresh_token provider token_endpoint (refresh_auth cid csec auth) w
    = (Ok new_token, w1) →
  let after :=
    snd (oauth_request provider TOKEN_FILE method url data cid csec auth false w) in
  let stored := or_empty (loaded (files w) TOKEN_FILE) in
  let merged := dict_update stored new_token in
  dumped after = (dumped w ++ [(TOKEN_FILE, merged)])%list
  ∧ files after = <[TOKEN_FILE := Doc merged]> (files w)
  ∧ __read_file__ TOKEN_FILE after = (Ok (Some merged), after)
  ∧ (∀ k v, stored !! k = Some v → new_token !! k = None → merged !! k = Some v)
  ∧ (∀ k v, new_token !! k = Some v → merged !! k = Some v).
Proof.
  intros Htoken Htruthy Hstale Hrefresh after stored merged.
  pose proof (preserves_refresh_token provider token_endpoint
                (refresh_auth cid csec auth) w) as [Hfiles Hdumped].
  rewrite Hrefresh in Hfiles, Hdumped. simpl in Hfiles, Hdumped.
  assert (Hafter : dumped after = (dumped w ++ [(TOKEN_FILE, merged)])%list
                   ∧ files after = <[TOKEN_FILE := Doc merged]> (files w)).
  { subst after. erewrite oauth_request_refresh_run by eassumption.
    unfold __refresh_access_token__, bind. rewrite write_file_run. cbv zeta.
    rewrite Hfiles, Hdumped. fold stored merged. unfold ret. cbv beta iota.
    match goal with
    | |- context [add_token ?c ?t ?n ?q] => by destruct (add_token c t n q)
    end. }
  destruct Hafter as [Hd Hf]. repeat split; [done | done | | |].
  - rewrite read_file_run, Hf. by rewrite loaded_insert.
  - intros k v Hold Hnew. subst merged. by rewrite dict_update_old.
  - intros k v. apply dict_update_new.
Qed.

(** C4: once the stored token is loaded into the session and the request
    to the user-info endpoint comes back with the response [r]: on a status
    other than 200 [getUserInfo] returns the empty mapping, raises nothing
    and leaves the user-info file as it was; on status 200 with a body that
    parses to the mapping [claims] it returns [claims] and has merge-written
    it to the user-info file, where every claim is then stored. *)
Theorem get_userinfo_outcome w w0 w1 r :
  TOKEN_FILE ≠ INFO_FILE →
  token_setter (loaded (files w) TOKEN_FILE) w = (Ok tt, w0) →
  oauth_request provider TOKEN_FILE "POST"
    (urljoin API_BASE_URL "/openid/v1/userinfo") ∅
    (Some CLIENT_ID) (Some CLIENT_SECRET) None false w0 = (Ok r, w1) →
  let run := get_userinfo provider CLIENT_ID CLIENT_SECRET TOKEN_FILE INFO_FILE w in
  (status_code r ≠ 200 →
     run = (Ok ∅, w1) ∧ files w1 !! INFO_FILE = files w !! INFO_FILE)
  ∧ (status_code r = 200 → ∀ claims : dict, text r = Doc claims →
       let stored := dict_update (or_empty (loaded (files w) INFO_FILE)) claims in
       fst run = Ok claims
       ∧ files (snd run) !! INFO_FILE = Some (Doc stored)
       ∧ __read_file__ INFO_FILE (snd run) = (Ok (Some stored), snd run)
       ∧ (∀ k v, claims !! k = Some v → stored !! k = Some v)).
Proof.
  intros Hdistinct Hset Hrequest run.
  assert (Hinfo : files w1 !! INFO_FILE = files w !! INFO_FILE).
  { pose proof (oauth_request_other_files "POST"
      (urljoin API_BASE_URL "/openid/v1/userinfo") ∅
      (Some CLIENT_ID) (Some CLIENT_SECRET) None false w0 INFO_FILE) as Hother.
    rewrite Hrequest in Hother. simpl in Hother. rewrite Hother by done.
    destruct (preserves_token_setter (loaded (files w) TOKEN_FILE) w) as [Hf _].
    rewrite Hset in Hf. simpl in Hf. by rewrite Hf. }
  assert (Hrun : run =
    (if (status_code r =? 200)%Z
     then let* userinfo := response_json r in
          let* _ := __write_file__ userinfo INFO_FILE in
          ret userinfo
     else ret ∅) w1).
  { subst run. unfold get_userinfo, bind at 1 2 3.
    by rewrite read_file_run, Hset, Hrequest. }
  rewrite Hrun. split.
  - intros Hne. apply Z.eqb_neq in Hne. by rewrite Hne.
  - intros Hok claims Hbody stored.
    assert (Hl : loaded (files w1) INFO_FILE = loaded (files w) INFO_FILE)
      by (unfold loaded; by rewrite Hinfo).
    assert (Hdone :
      (if (status_code r =? 200)%Z
       then let* userinfo := response_json r in
            let* _ := __write_file__ userinfo INFO_FILE in
            ret userinfo
       else ret ∅) w1
      = (Ok claims, set_dumped (dumped w1 ++ [(INFO_FILE, stored)])
                      (set_files (<[INFO_FILE := Doc stored]> (files w1)) w1))).
    { rewrite Hok. simpl. unfold bind, response_json. rewrite Hbody.
      unfold ret at 1. rewrite write_file_run. cbv zeta. by rewrite Hl. }
    rewrite Hdone. simpl. repeat split.
    + by rewrite lookup_insert_eq.
    + rewrite read_file_run. simpl. by rewrite loaded_insert.
    + intros k v. apply dict_update_new.
Qed.

End ProgramClaims.

(** ** The program on concrete worlds *)

Section Runs.

Import Demo.

(** An equation between closed terms, checked by evaluation. *)
Ltac by_evaluation :=
  lazymatch goal with
  | |- ?x = _ => vm_cast_no_check (@eq_refl _ x)
  end.

(** C1, as the merge law words it, fails: two writes of mappings that hold
    an object under the same key leave the second object, not the deep merge
    of the two. *)
Lemma write_write_not_deep_merge :
  files (start ∅ 0) = ∅
  ∧ fst ((let* _ := __write_file__ nested1 token_file in
          __write_file__ nested2 token_file) (start ∅ 0)) = Ok tt
  ∧ files (snd ((let* _ := __write_file__ nested1 token_file in
                 __write_file__ nested2 token_file) (start ∅ 0))) !! token_file
    = Some (Doc nested2)
  ∧ files (snd ((let* _ := __write_file__ nested1 token_file in
                 __write_file__ nested2 token_file) (start ∅ 0))) !! token_file
    ≠ Some (Doc (deep_merge nested1 nested2)).
Proof.
  repeat split; try (vm_compute; reflexivity).
  intros E. vm_compute in E. discriminate E.
Qed.

Lemma write_write_shallow_merge_witness :
  files (start ∅ 0) !! token_file = None
  ∧ files (snd ((let* _ := __write_file__ issued token_file in
                 __write_file__ reissued token_file) (start ∅ 0))) !! token_file
    = Some (Doc (dict_update issued reissued)).
Proof.
  split; [reflexivity |].
  apply (write_write_shallow_merge token_file issued reissued (start ∅ 0)).
  reflexivity.
Defined.

Lemma del_file_idempotent_witness :
  __del_file__ token_file (start ∅ 0) = (Ok tt, start ∅ 0)
  ∧ files (snd (__del_file__ token_file (start {[ token_file := Doc kept ]} 0)))
      !! token_file = None.
Proof.
  pose proof (del_file_idempotent token_file (start ∅ 0)
                (start {[ token_file := Doc kept ]} 0) eq_refl) as (H1 & _ & _ & H4).
  split; [exact H1 | exact H4].
Defined.

(** The scenario of the specification: over an empty store, the exchange of
    a valid code against a provider that answers [issued] at time 0 returns
    and stores that mapping with the derived expiry. *)
Lemma exchange_persists_record_witness :
  fst (exchange_authorization_code (provider (answer 200 issued) (answer 200 claims))
         client_id client_secret redirect_uri token_file "valid-code" (start ∅ 0))
    = Ok (<["expires_at" := JNum 3600]> issued)
  ∧ files (snd (exchange_authorization_code
                  (provider (answer 200 issued) (answer 200 claims))
                  client_id client_secret redirect_uri token_file "valid-code"
                  (start ∅ 0)))
    = {[ token_file := Doc (<["expires_at" := JNum 3600]> issued) ]}.
Proof.
  destruct (exchange_persists_record
              (provider (answer 200 issued) (answer 200 claims))
              client_id client_secret redirect_uri token_file "valid-code"
              (start ∅ 0)
              (snd (oauth_fetch_token (provider (answer 200 issued) (answer 200 claims))
                      client_id redirect_uri token_url "valid-code" client_secret
                      (start ∅ 0)))
              (<["expires_at" := JNum 3600]> issued))
    as (Hret & Hfiles & _); [by_evaluation |].
  split; [exact Hret |]. rewrite Hfiles. by_evaluation.
Defined.

(** A provider that rejects the code, over a store that holds a token. *)
Lemma exchange_failure_keeps_store_witness :
  fst (exchange_authorization_code
         (provider (answer 400 {[ "error" := JStr "invalid_grant" ]}) (answer 200 claims))
         client_id client_secret redirect_uri token_file "stale-code"
         (start {[ token_file := Doc kept ]} 0))
    = Raise (OAuth2Error "invalid_grant")
  ∧ files (snd (exchange_authorization_code
                  (provider (answer 400 {[ "error" := JStr "invalid_grant" ]})
                     (answer 200 claims))
                  client_id client_secret redirect_uri token_file "stale-code"
                  (start {[ token_file := Doc kept ]} 0)))
    = {[ token_file := Doc kept ]}.
Proof.
  destruct (exchange_failure_keeps_store
              (provider (answer 400 {[ "error" := JStr "invalid_grant" ]})
                 (answer 200 claims))
              client_id client_secret redirect_uri token_file "stale-code"
              (start {[ token_file := Doc kept ]} 0)
              (snd (oauth_fetch_token
                      (provider (answer 400 {[ "error" := JStr "invalid_grant" ]})
                         (answer 200 claims))
                      client_id redirect_uri token_url "stale-code" client_secret
                      (start {[ token_file := Doc kept ]} 0)))
              (OAuth2Error "invalid_grant"))
    as (Hrun & Hfiles & _); [by_evaluation |].
  rewrite Hrun. split; [reflexivity | exact Hfiles].
Defined.

Lemma no_token_fails_witness :
  get_userinfo unreachable client_id client_secret token_file info_file (start ∅ 0)
    = (Raise TypeError, set_session_token None (start ∅ 0))
  ∧ revoke_grant unreachable client_id client_secret token_file (start ∅ 0)
    = (Raise TypeError, start ∅ 0)
  ∧ revoke_grant unreachable client_id client_secret token_file
      (start {[ token_file := Doc reissued ]} 0)
    = (Raise (KeyError "refresh_token"), start {[ token_file := Doc reissued ]} 0).
Proof.
  apply (no_token_fails unreachable client_id client_secret token_file info_file
           (start ∅ 0) (start {[ token_file := Doc reissued ]} 0) reissued);
    by_evaluation.
Defined.

(** C3, as it is worded for every state, fails: in a process whose session
    holds the stored token, expired, with a provider that refreshes and then
    answers the revocation with 404, [revoke_grant] returns false and the
    token file is no longer what it was: it holds the refreshed token. *)
Lemma revoke_grant_rewrites_token_file :
  files (loaded_session {[ token_file := Doc kept ]} 4000) !! token_file
    = Some (Doc kept)
  ∧ kept !! "refresh_token" = Some (JStr "R")
  ∧ fst (revoke_grant (provider (answer 200 reissued) (answer 404 ∅))
           client_id client_secret token_file
           (loaded_session {[ token_file := Doc kept ]} 4000)) = Ok false
  ∧ files (snd (revoke_grant (provider (answer 200 reissued) (answer 404 ∅))
                  client_id client_secret token_file
                  (loaded_session {[ token_file := Doc kept ]} 4000))) !! token_file
    = Some (Doc (<["access_token" := JStr "B"]> (<["expires_at" := JNum 7600]> kept)))
  ∧ files (snd (revoke_grant (provider (answer 200 reissued) (answer 404 ∅))
                  client_id client_secret token_file
                  (loaded_session {[ token_file := Doc kept ]} 4000))) !! token_file
    ≠ files (loaded_session {[ token_file := Doc kept ]} 4000) !! token_file.
Proof.
  assert (Hbefore :
    files (loaded_session {[ token_file := Doc kept ]} 4000) !! token_file
    = Some (Doc kept)) by by_evaluation.
  assert (Hafter :
    files (snd (revoke_grant (provider (answer 200 reissued) (answer 404 ∅))
                  client_id client_secret token_file
                  (loaded_session {[ token_file := Doc kept ]} 4000))) !! token_file
    = Some (Doc (<["access_token" := JStr "B"]> (<["expires_at" := JNum 7600]> kept))))
    by by_evaluation.
  split; [exact Hbefore |]. split; [by_evaluation |]. split; [by_evaluation |].
  split; [exact Hafter |].
  rewrite Hafter, Hbefore. intros E.
  assert (Hnew : (<["access_token" := JStr "B"]> (<["expires_at" := JNum 7600]> kept)
                    : dict) !! "access_token" = Some (JStr "B")) by by_evaluation.
  assert (Hold : kept !! "access_token" = Some (JStr "A")) by by_evaluation.
  assert (Hsame :
    (<["access_token" := JStr "B"]> (<["expires_at" := JNum 7600]> kept) : dict)
      !! "access_token" = kept !! "access_token")
    by exact (f_equal (λ o : option document,
                         match o with
                         | Some (Doc m) => m !! "access_token"
                         | _ => None
                         end) E).
  rewrite Hnew, Hold in Hsame. discriminate Hsame.
Qed.

(** The revocation endpoint answers 200, and then 404. *)
Lemma revoke_grant_outcome_witness :
  (fst (revoke_grant (provider (answer 200 issued) (answer 200 ∅))
          client_id client_secret token_file
          (start {[ token_file := Doc kept ]} 0)) = Ok true
   ∧ files (snd (revoke_grant (provider (answer 200 issued) (answer 200 ∅))
                   client_id client_secret token_file
                   (start {[ token_file := Doc kept ]} 0))) = ∅)
  ∧ (fst (revoke_grant (provider (answer 200 issued) (answer 404 ∅))
            client_id client_secret token_file
            (start {[ token_file := Doc kept ]} 0)) = Ok false
     ∧ files (snd (revoke_grant (provider (answer 200 issued) (answer 404 ∅))
                     client_id client_secret token_file
                     (start {[ token_file := Doc kept ]} 0)))
       = {[ token_file := Doc kept ]}).
Proof.
  split.
  - destruct (revoke_grant_outcome (provider (answer 200 issued) (answer 200 ∅))
                client_id client_secret token_file
                (start {[ token_file := Doc kept ]} 0) kept (JStr "R")
                (answer 200 ∅)) as [Hok _]; [by_evaluation ..|].
    destruct (Hok eq_refl) as (Hret & Hfiles & _).
    split; [exact Hret |]. rewrite Hfiles. by_evaluation.
  - destruct (revoke_grant_outcome (provider (answer 200 issued) (answer 404 ∅))
                client_id client_secret token_file
                (start {[ token_file := Doc kept ]} 0) kept (JStr "R")
                (answer 404 ∅)) as [_ Hother]; [by_evaluation ..|].
    destruct Hother as (Hret & Hfiles); [discriminate |].
    split; [exact Hret | exact Hfiles].
Defined.

(** The scenario of the specification: the stored token has expired, the
    refresh answers a new access token without a scope; one dump is made, and
    the token file holds the new access token next to the old scope. *)
Lemma refresh_persisted_once_witness :
  dumped (snd (oauth_request (provider (answer 200 reissued) (answer 200 claims))
                 token_file "POST" userinfo_url ∅
                 (Some client_id) (Some client_secret) None false
                 (loaded_session {[ token_file := Doc kept ]} 4000)))
    = [(token_file, <["access_token" := JStr "B"]> (<["expires_at" := JNum 7600]> kept))]
  ∧ files (snd (oauth_request (provider (answer 200 reissued) (answer 200 claims))
                  token_file "POST" userinfo_url ∅
                  (Some client_id) (Some client_secret) None false
                  (loaded_session {[ token_file := Doc kept ]} 4000)))
    = {[ token_file :=
           Doc (<["access_token" := JStr "B"]> (<["expires_at" := JNum 7600]> kept)) ]}.
Proof.
  destruct (refresh_persisted_once (provider (answer 200 reissued) (answer 200 claims))
              token_file "POST" userinfo_url ∅
              (Some client_id) (Some client_secret) None
              (loaded_session {[ token_file := Doc kept ]} 4000)
              (snd (refresh_token (provider (answer 200 reissued) (answer 200 claims))
                      token_url (Some (client_id, client_secret))
                      (loaded_session {[ token_file := Doc kept ]} 4000)))
              kept
              (<["refresh_token" := JStr "R"]> (<["expires_at" := JNum 7600]> reissued)))
    as (Hdumped & Hfiles & _); [by_evaluation ..|].
  rewrite Hdumped, Hfiles. split; by_evaluation.
Defined.

(** The scenarios of the specification: the user-info endpoint answers 401,
    and then 200 with the claims. *)
Lemma get_userinfo_outcome_witness :
  (fst (get_userinfo (provider (answer 200 issued) (answer 401 ∅))
          client_id client_secret token_file info_file
          (start {[ token_file := Doc kept; info_file := Doc claims ]} 1000)) = Ok ∅
   ∧ files (snd (get_userinfo (provider (answer 200 issued) (answer 401 ∅))
                   client_id client_secret token_file info_file
                   (start {[ token_file := Doc kept; info_file := Doc claims ]} 1000)))
       !! info_file = Some (Doc claims))
  ∧ (fst (get_userinfo (provider (answer 200 issued) (answer 200 claims))
            client_id client_secret token_file info_file
            (start {[ token_file := Doc kept ]} 1000)) = Ok claims
     ∧ files (snd (get_userinfo (provider (answer 200 issued) (answer 200 claims))
                     client_id client_secret token_file info_file
                     (start {[ token_file := Doc kept ]} 1000)))
         !! info_file = Some (Doc claims)).
Proof.
  split.
  - destruct (get_userinfo_outcome (provider (answer 200 issued) (answer 401 ∅))
                client_id client_secret token_file info_file
                (start {[ token_file := Doc kept; info_file := Doc claims ]} 1000)
                (snd (token_setter (Some kept)
                        (start {[ token_file := Doc kept; info_file := Doc claims ]} 1000)))
                (snd (oauth_request (provider (answer 200 issued) (answer 401 ∅))
                        token_file "POST" userinfo_url ∅
                        (Some client_id) (Some client_secret) None false
                        (snd (token_setter (Some kept)
                                (start {[ token_file := Doc kept; info_file := Doc claims ]}
                                   1000)))))
                (answer 401 ∅))
      as [Hother _]; [discriminate | by_evaluation ..|].
    destruct Hother as [Hrun Hinfo]; [discriminate |].
    rewrite Hrun. split; [reflexivity |].
    etrans; [exact Hinfo | by_evaluation].
  - destruct (get_userinfo_outcome (provider (answer 200 issued) (answer 200 claims))
                client_id client_secret token_file info_file
                (start {[ token_file := Doc kept ]} 1000)
                (snd (token_setter (Some kept) (start {[ token_file := Doc kept ]} 1000)))
                (snd (oauth_request (provider (answer 200 issued) (answer 200 claims))
                        token_file "POST" userinfo_url ∅
                        (Some client_id) (Some client_secret) None false
                        (snd (token_setter (Some kept)
                                (start {[ token_file := Doc kept ]} 1000)))))
                (answer 200 claims))
      as [_ Hok]; [discriminate | by_evaluation ..|].
    destruct (Hok eq_refl claims eq_refl) as (Hret & Hfiles & _).
    split; [exact Hret |]. rewrite Hfiles. by_evaluation.
Defined.

End Runs.

(** * Further laws of the store and of the program *)

Section StoreLaws.

Context {C : Type}.
Implicit Types w : world C.

(** The files after two writes to the same name. *)
Lemma write_write_files file_name (d1 d2 : dict) w :
  files (snd ((let* _ := __write_file__ d1 file_name in
               __write_file__ d2 file_name) w))
  = <[file_name :=
        Doc (dict_update (dict_update (or_empty (loaded (files w) file_name)) d1) d2)]>
      (files w).
Proof.
  unfold bind. rewrite write_file_run. cbv zeta. rewrite write_file_run.
  cbv zeta. simpl. by rewrite loaded_insert, or_empty_Some, insert_insert_eq.
Qed.

(** X1: Round trip: over a file that is absent or holds the empty mapping,
    [write(name, d)] then [read(name)] returns exactly [d], and the read
    leaves the world as the write left it. *)
Theorem write_then_read file_name (d : dict) w :
  files w !! file_name = None ∨ files w !! file_name = Some (Doc ∅) →
  __read_file__ file_name (snd (__write_file__ d file_name w))
  = (Ok (Some d), snd (__write_file__ d file_name w)).
Proof.
  intros Hempty.
  assert (He : or_empty (loaded (files w) file_name) = ∅).
  { unfold loaded. by destruct Hempty as [-> | ->]. }
  rewrite read_file_run, write_file_run. cbv zeta. simpl.
  by rewrite loaded_insert, He, dict_update_empty.
Qed.

(** X2: A write never removes a key: after [write(name, d)] over a stored
    mapping, every stored key that [d] does not mention is read back with
    the value it had, and every key of [d] is read back with [d]'s value. *)
Theorem write_keeps_stored_keys file_name (stored d : dict) w :
  files w !! file_name = Some (Doc stored) →
  ∃ after : dict,
    __read_file__ file_name (snd (__write_file__ d file_name w))
      = (Ok (Some after), snd (__write_file__ d file_name w))
    ∧ (∀ k v, stored !! k = Some v → d !! k = None → after !! k = Some v)
    ∧ (∀ k v, d !! k = Some v → after !! k = Some v)
    ∧ (∀ k, stored !! k = None → d !! k = None → after !! k = None).
Proof.
  intros Hdoc. exists (dict_update stored d).
  assert (Hl : or_empty (loaded (files w) file_name) = stored).
  { unfold loaded. rewrite Hdoc. apply or_empty_Some. }
  split; [| split; [| split]].
  - rewrite read_file_run, write_file_run. cbv zeta. simpl.
    by rewrite loaded_insert, Hl.
  - intros k v Hs Hd. by rewrite dict_update_old.
  - intros k v. apply dict_update_new.
  - intros k Hs Hd. by rewrite dict_update_old.
Qed.

(** X3: A write touches one file only: every other file, the session, the
    requests sent and the clock are as before, and exactly one dump is
    logged. *)
Theorem write_touches_one_file file_name other (d : dict) w :
  other ≠ file_name →
  files (snd (__write_file__ d file_name w)) !! other = files w !! other
  ∧ session_token (snd (__write_file__ d file_name w)) = session_token w
  ∧ client (snd (__write_file__ d file_name w)) = client w
  ∧ sent (snd (__write_file__ d file_name w)) = sent w
  ∧ length (dumped (snd (__write_file__ d file_name w))) = S (length (dumped w)).
Proof.
  intros Hne. rewrite write_file_run. cbv zeta. simpl. repeat split.
  - by rewrite lookup_insert_ne.
  - rewrite length_app. simpl. lia.
Qed.

(** X4: Two writes compose into one: [write(name, d1)] then [write(name, d2)]
    leaves the files that the single write of [d1] updated with [d2] leaves,
    whatever the store held. *)
Theorem write_write_is_one_write file_name (d1 d2 : dict) w :
  files (snd ((let* _ := __write_file__ d1 file_name in
               __write_file__ d2 file_name) w))
  = files (snd (__write_file__ (dict_update d1 d2) file_name w)).
Proof.
  rewrite write_write_files, write_file_run. cbv zeta. simpl.
  unfold dict_update. by rewrite (assoc_L (∪)).
Qed.

(** X5: Writes of mappings with no key in common commute: either order leaves
    the same files. *)
Theorem write_write_commute file_name (d1 d2 : dict) w :
  d1 ##ₘ d2 →
  files (snd ((let* _ := __write_file__ d1 file_name in
               __write_file__ d2 file_name) w))
  = files (snd ((let* _ := __write_file__ d2 file_name in
                 __write_file__ d1 file_name) w)).
Proof.
  intros Hdisjoint. rewrite !write_write_files. unfold dict_update.
  by rewrite !(assoc_L (∪)), (map_union_comm d2 d1).
Qed.

(** X6: Deleting resets the merge: after [delete(name)], [write(name, d)] leaves
    exactly [d] under the name, whatever was stored before; and after a
    write, a delete leaves nothing to read. *)
Theorem delete_resets_merge file_name (d : dict) w :
  files (snd ((let* _ := __del_file__ file_name in
               __write_file__ d file_name) w)) !! file_name = Some (Doc d)
  ∧ fst (__read_file__ file_name
           (snd ((let* _ := __write_file__ d file_name in
                  __del_file__ file_name) w))) = Ok None.
Proof.
  split.
  - unfold bind. rewrite del_file_run, write_file_run. cbv zeta. simpl.
    unfold loaded. rewrite lookup_delete_eq. simpl.
    by rewrite dict_update_empty, lookup_insert_eq.
  - unfold bind. rewrite write_file_run. cbv zeta. rewrite del_file_run.
    rewrite read_file_run. simpl. unfold loaded.
    by rewrite lookup_delete_eq.
Qed.

End StoreLaws.

Section ProgramLaws.

Context {C : Type} `{OAuth2Client C}.
Variable provider : list http_request → http_request → result http_response.
Variables CLIENT_ID CLIENT_SECRET REDIRECT_URI TOKEN_FILE INFO_FILE : string.
Implicit Types w : world C.

Let token_endpoint : string := urljoin API_BASE_URL "/oauth2/get_token".
Let userinfo_endpoint : string := urljoin API_BASE_URL "/openid/v1/userinfo".
Let revoke_endpoint : string := urljoin API_BASE_URL "/oauth2/revoke".

(** The request that [revoke_grant] builds from the stored refresh token. *)
Let revoke_request (refresh : json) : http_request :=
  HttpRequest "POST" revoke_endpoint [] (Some (CLIENT_ID, CLIENT_SECRET))
    {[ "token" := refresh; "token_type_hint" := JStr "refresh_token" ]}.

(** X7: [request] writes nothing unless the token is stale: when the session
    holds no token, or [add_token] does not raise [TokenExpiredError], the
    files and the log of dumps are as before. *)
Theorem request_without_refresh_writes_nothing
    method url data cid csec auth withhold w :
  (∀ token, session_token w = Some token →
     add_token (client w) token (clock w) (HttpRequest method url [] auth data)
       ≠ Raise TokenExpiredError) →
  files (snd (oauth_request provider TOKEN_FILE method url data cid csec auth
                withhold w)) = files w
  ∧ dumped (snd (oauth_request provider TOKEN_FILE method url data cid csec auth
                   withhold w)) = dumped w.
Proof.
  intros Hfresh. unfold oauth_request, request.
  destruct (session_token w) as [token |]; [| done].
  destruct (truthy token && negb withhold); [| done].
  specialize (Hfresh token eq_refl).
  destruct (add_token (client w) token (clock w) _) as [req' | e]; [done |].
  by destruct e.
Qed.

(** X8: A failed refresh is not retried and persists nothing: [request] raises
    the error of the refresh call, the request itself is not sent, and the
    files and the log of dumps are as before. *)
Theorem refresh_failure_propagates method url data cid csec auth w w1 (old : dict) e :
  session_token w = Some old →
  truthy old = true →
  add_token (client w) old (clock w) (HttpRequest method url [] auth data)
    = Raise TokenExpiredError →
  refresh_token provider token_endpoint (refresh_auth cid csec auth) w
    = (Raise e, w1) →
  oauth_request provider TOKEN_FILE method url data cid csec auth false w
    = (Raise e, w1)
  ∧ files w1 = files w
  ∧ dumped w1 = dumped w.
Proof.
  intros Htoken Htruthy Hstale Hrefresh.
  pose proof (preserves_refresh_token provider token_endpoint
                (refresh_auth cid csec auth) w) as [Hfiles Hdumped].
  rewrite Hrefresh in Hfiles, Hdumped. split; [| done].
  unfold oauth_request, request. fold token_endpoint.
  rewrite Htoken, Htruthy, Hstale. simpl. unfold bind at 1. by rewrite Hrefresh.
Qed.

(** X9: Only a response is turned into an empty result: when the request of
    [get_userinfo] raises (a transport failure, a failed refresh),
    [get_userinfo] raises the same error and the user-info file is as
    before. *)
Theorem get_userinfo_failure_propagates w w0 w1 e :
  TOKEN_FILE ≠ INFO_FILE →
  token_setter (loaded (files w) TOKEN_FILE) w = (Ok tt, w0) →
  oauth_request provider TOKEN_FILE "POST" userinfo_endpoint ∅
    (Some CLIENT_ID) (Some CLIENT_SECRET) None false w0 = (Raise e, w1) →
  get_userinfo provider CLIENT_ID CLIENT_SECRET TOKEN_FILE INFO_FILE w = (Raise e, w1)
  ∧ files w1 !! INFO_FILE = files w !! INFO_FILE.
Proof.
  intros Hdistinct Hset Hrequest. split.
  - unfold get_userinfo, bind. fold userinfo_endpoint.
    by rewrite read_file_run, Hset, Hrequest.
  - pose proof (oauth_request_other_files provider TOKEN_FILE "POST"
      userinfo_endpoint ∅ (Some CLIENT_ID) (Some CLIENT_SECRET) None false w0
      INFO_FILE) as Hother.
    rewrite Hrequest in Hother. simpl in Hother. rewrite Hother by done.
    destruct (preserves_token_setter (loaded (files w) TOKEN_FILE) w) as [Hf _].
    rewrite Hset in Hf. simpl in Hf. by rewrite Hf.
Qed.

(** X10: A 200 response whose body is not JSON is an error, not an empty result:
    [get_userinfo] raises [JSONDecodeError] from [response.json()] and does
    not write the user-info file. *)
Theorem get_userinfo_bad_body w w0 w1 r raw :
  TOKEN_FILE ≠ INFO_FILE →
  token_setter (loaded (files w) TOKEN_FILE) w = (Ok tt, w0) →
  oauth_request provider TOKEN_FILE "POST" userinfo_endpoint ∅
    (Some CLIENT_ID) (Some CLIENT_SECRET) None false w0 = (Ok r, w1) →
  status_code r = 200 →
  text r = Malformed raw →
  get_userinfo provider CLIENT_ID CLIENT_SECRET TOKEN_FILE INFO_FILE w
    = (Raise JSONDecodeError, w1)
  ∧ files w1 !! INFO_FILE = files w !! INFO_FILE.
Proof.
  intros Hdistinct Hset Hrequest Hstatus Hbody. split.
  - unfold get_userinfo, bind at 1 2 3. fold userinfo_endpoint.
    rewrite read_file_run, Hset, Hrequest, Hstatus. simpl.
    unfold bind, response_json. by rewrite Hbody.
  - pose proof (oauth_request_other_files provider TOKEN_FILE "POST"
      userinfo_endpoint ∅ (Some CLIENT_ID) (Some CLIENT_SECRET) None false w0
      INFO_FILE) as Hother.
    rewrite Hrequest in Hother. simpl in Hother. rewrite Hother by done.
    destruct (preserves_token_setter (loaded (files w) TOKEN_FILE) w) as [Hf _].
    rewrite Hset in Hf. simpl in Hf. by rewrite Hf.
Qed.

(** How [revoke_grant] runs in a process whose session holds no token. *)
Lemma revoke_grant_run w (m : dict) refresh :
  files w !! TOKEN_FILE = Some (Doc m) →
  m !! "refresh_token" = Some refresh →
  no_session_token w = true →
  revoke_grant provider CLIENT_ID CLIENT_SECRET TOKEN_FILE w
  = match provider (sent w) (revoke_request refresh) with
    | Ok r =>
        if (status_code r =? 200)%Z
        then (Ok true,
              set_files (delete TOKEN_FILE (files w))
                (set_sent (sent w ++ [revoke_request refresh]) w))
        else (Ok false, set_sent (sent w ++ [revoke_request refresh]) w)
    | Raise e => (Raise e, set_sent (sent w ++ [revoke_request refresh]) w)
    end.
Proof.
  intros Hdoc Hkey Hfresh.
  unfold revoke_grant, bind at 1 2. rewrite read_file_run.
  unfold loaded. rewrite Hdoc. simpl. rewrite Hkey. simpl.
  unfold oauth_request, bind. rewrite request_without_token by done.
  unfold http_send. fold revoke_endpoint. fold (revoke_request refresh).
  destruct (provider (sent w) (revoke_request refresh)) as [r | e]; [| done].
  destruct (status_code r =? 200)%Z; [| done].
  by rewrite del_file_run.
Qed.

(** X12: In a process whose session holds no token, [revoke_grant] sends exactly
    one request: a POST to the revocation endpoint with the client's
    credentials as basic authentication, the stored refresh token as
    [token], and no bearer header.  When that request fails in transport the
    error leaves [revoke_grant] and the token file is kept. *)
Theorem revoke_grant_sends_one_request w (m : dict) refresh :
  files w !! TOKEN_FILE = Some (Doc m) →
  m !! "refresh_token" = Some refresh →
  no_session_token w = true →
  sent (snd (revoke_grant provider CLIENT_ID CLIENT_SECRET TOKEN_FILE w))
    = (sent w ++
       [HttpRequest "POST" (urljoin API_BASE_URL "/oauth2/revoke") []
          (Some (CLIENT_ID, CLIENT_SECRET))
          {[ "token" := refresh; "token_type_hint" := JStr "refresh_token" ]}])%list
  ∧ (∀ e,
       provider (sent w)
         (HttpRequest "POST" (urljoin API_BASE_URL "/oauth2/revoke") []
            (Some (CLIENT_ID, CLIENT_SECRET))
            {[ "token" := refresh; "token_type_hint" := JStr "refresh_token" ]})
         = Raise e →
       fst (revoke_grant provider CLIENT_ID CLIENT_SECRET TOKEN_FILE w) = Raise e
       ∧ files (snd (revoke_grant provider CLIENT_ID CLIENT_SECRET TOKEN_FILE w))
         = files w).
Proof.
  intros Hdoc Hkey Hfresh. rewrite (revoke_grant_run w m refresh) by done.
  fold revoke_endpoint. fold (revoke_request refresh). split.
  - destruct (provider (sent w) (revoke_request refresh)) as [r | e]; [| done].
    by destruct (status_code r =? 200)%Z.
  - intros e He. by rewrite He.
Qed.

(** X13: After a successful revocation nothing is left to work with: in the
    world that [revoke_grant] leaves on the answer 200, [get_userinfo] and a
    second [revoke_grant] both fail with [TypeError], before any request. *)
Theorem revoked_then_no_token w (m : dict) refresh r :
  files w !! TOKEN_FILE = Some (Doc m) →
  m !! "refresh_token" = Some refresh →
  no_session_token w = true →
  provider (sent w)
    (HttpRequest "POST" (urljoin API_BASE_URL "/oauth2/revoke") []
       (Some (CLIENT_ID, CLIENT_SECRET))
       {[ "token" := refresh; "token_type_hint" := JStr "refresh_token" ]})
    = Ok r →
  status_code r = 200 →
  fst (revoke_grant provider CLIENT_ID CLIENT_SECRET TOKEN_FILE w) = Ok true
  ∧ fst (get_userinfo provider CLIENT_ID CLIENT_SECRET TOKEN_FILE INFO_FILE
           (snd (revoke_grant provider CLIENT_ID CLIENT_SECRET TOKEN_FILE w)))
    = Raise TypeError
  ∧ revoke_grant provider CLIENT_ID CLIENT_SECRET TOKEN_FILE
      (snd (revoke_grant provider CLIENT_ID CLIENT_SECRET TOKEN_FILE w))
    = (Raise TypeError,
       snd (revoke_grant provider CLIENT_ID CLIENT_SECRET TOKEN_FILE w)).
Proof.
  intros Hdoc Hkey Hfresh Hanswer Hstatus.
  rewrite (revoke_grant_run w m refresh) by done.
  unfold revoke_request, revoke_endpoint. rewrite Hanswer, Hstatus. simpl.
  split; [done |]. split.
  - unfold get_userinfo, bind. rewrite read_file_run. simpl.
    unfold loaded. by rewrite lookup_delete_eq.
  - unfold revoke_grant, bind. rewrite read_file_run. simpl.
    unfold loaded. by rewrite lookup_delete_eq.
Qed.

(** X14: A token file that holds the empty mapping is not a missing token: once
    the client has accepted it, [get_userinfo] sends its request without a
    bearer header and without a refresh, and a refusal comes back as the
    empty result. *)
Theorem empty_token_record_goes_unauthenticated w c r :
  files w !! TOKEN_FILE = Some (Doc ∅) →
  populate_token_attributes (client w) ∅ (clock w) = Ok c →
  provider (sent w)
    (HttpRequest "POST" (urljoin API_BASE_URL "/openid/v1/userinfo") [] None ∅)
    = Ok r →
  status_code r ≠ 200 →
  get_userinfo provider CLIENT_ID CLIENT_SECRET TOKEN_FILE INFO_FILE w
  = (Ok ∅,
     set_sent
       (sent w ++
        [HttpRequest "POST" (urljoin API_BASE_URL "/openid/v1/userinfo") [] None ∅])
       (set_client c (set_session_token (Some ∅) w))).
Proof.
  intros Hdoc Hpopulate Hanswer Hstatus. apply Z.eqb_neq in Hstatus.
  unfold get_userinfo, bind at 1 2 3. rewrite read_file_run.
  unfold loaded. rewrite Hdoc. unfold token_setter. simpl.
  rewrite Hpopulate. unfold oauth_request.
  rewrite request_without_token by done.
  unfold http_send. simpl. rewrite Hanswer, Hstatus. reflexivity.
Qed.

(** X15: Exchanging a code over a stored record does not clear it: every stored
    field that the new token does not carry is still stored, with its value,
    after a successful exchange. *)
Theorem exchange_keeps_old_fields code w w1 (old token : dict) :
  files w !! TOKEN_FILE = Some (Doc old) →
  oauth_fetch_token provider CLIENT_ID REDIRECT_URI token_endpoint code CLIENT_SECRET w
    = (Ok token, w1) →
  ∃ stored : dict,
    files (snd (exchange_authorization_code provider CLIENT_ID CLIENT_SECRET
                  REDIRECT_URI TOKEN_FILE code w)) !! TOKEN_FILE
      = Some (Doc stored)
    ∧ (∀ k v, old !! k = Some v → token !! k = None → stored !! k = Some v).
Proof.
  intros Hdoc Hfetch. exists (dict_update old token).
  destruct (preserves_fetch_token provider CLIENT_ID REDIRECT_URI token_endpoint
              code CLIENT_SECRET w) as [Hfiles _].
  unfold oauth_fetch_token in Hfetch. rewrite Hfetch in Hfiles. simpl in Hfiles.
  split.
  - unfold exchange_authorization_code, bind, oauth_fetch_token.
    fold token_endpoint. rewrite Hfetch, write_file_run. cbv zeta. simpl.
    rewrite lookup_insert_eq, Hfiles. unfold loaded. rewrite Hdoc.
    by rewrite or_empty_Some.
  - intros k v Hold Hnew. by rewrite dict_update_old.
Qed.

(** [exchange_authorization_code] writes to no file but the token file. *)
Lemma exchange_other_files name code w :
  name ≠ TOKEN_FILE →
  files (snd (exchange_authorization_code provider CLIENT_ID CLIENT_SECRET
                REDIRECT_URI TOKEN_FILE code w)) !! name = files w !! name.
Proof.
  intros Htoken.
  unfold exchange_authorization_code, bind, oauth_fetch_token.
  destruct (preserves_fetch_token provider CLIENT_ID REDIRECT_URI token_endpoint
              code CLIENT_SECRET w) as [Hfiles _].
  fold token_endpoint.
  destruct (fetch_token _ _ _ _ _ _ w) as [[token | e] w1]; simpl in Hfiles;
    [| simpl; by rewrite Hfiles].
  rewrite write_file_run. cbv zeta. simpl.
  by rewrite lookup_insert_ne, Hfiles.
Qed.

(** [get_userinfo] writes to no file but the token file and the user-info
    file. *)
Lemma get_userinfo_other_files name w :
  name ≠ TOKEN_FILE →
  name ≠ INFO_FILE →
  files (snd (get_userinfo provider CLIENT_ID CLIENT_SECRET TOKEN_FILE
                INFO_FILE w)) !! name = files w !! name.
Proof.
  intros Htoken Hinfo.
  unfold get_userinfo, bind at 1 2. rewrite read_file_run.
  destruct (preserves_token_setter (loaded (files w) TOKEN_FILE) w) as [Hset _].
  destruct (token_setter _ w) as [[[] | e] w0]; simpl in Hset;
    [| simpl; by rewrite Hset].
  unfold bind at 1.
  pose proof (oauth_request_other_files provider TOKEN_FILE "POST"
    userinfo_endpoint ∅ (Some CLIENT_ID) (Some CLIENT_SECRET) None false w0
    name Htoken) as Hrequest.
  fold userinfo_endpoint.
  destruct (oauth_request _ _ _ _ _ _ _ _ _ w0) as [[r | e] w1];
    simpl in Hrequest; [| simpl; by rewrite Hrequest, Hset].
  destruct (status_code r =? 200)%Z; [| simpl; by rewrite Hrequest, Hset].
  unfold bind, response_json.
  destruct (text r) as [claims | raw]; [| simpl; by rewrite Hrequest, Hset].
  unfold ret at 1. rewrite write_file_run. cbv zeta. simpl.
  by rewrite lookup_insert_ne, Hrequest, Hset.
Qed.

(** [revoke_grant] writes to no file but the token file. *)
Lemma revoke_grant_other_files name w :
  name ≠ TOKEN_FILE →
  files (snd (revoke_grant provider CLIENT_ID CLIENT_SECRET TOKEN_FILE w))
    !! name = files w !! name.
Proof.
  intros Htoken.
  unfold revoke_grant, bind at 1 2. rewrite read_file_run.
  destruct (loaded (files w) TOKEN_FILE) as [m |]; [| done]. simpl.
  destruct (m !! "refresh_token") as [refresh |]; [| done]. simpl.
  unfold bind at 1.
  match goal with
  | |- context [oauth_request ?p ?f ?me ?u ?d ?i ?s ?a ?wh w] =>
      pose proof (oauth_request_other_files p f me u d i s a wh w name Htoken)
        as Hrequest;
      destruct (oauth_request p f me u d i s a wh w) as [[r | e] w1]
  end; simpl in Hrequest; [| done].
  destruct (status_code r =? 200)%Z; [| done].
  unfold bind. rewrite del_file_run. simpl.
  by rewrite lookup_delete_ne.
Qed.

(** X16: The program writes to its two files and to nothing else: whatever the
    provider answers and whether they succeed or fail,
    [exchange_authorization_code], [get_userinfo] and [revoke_grant] leave
    every file other than the token file and the user-info file as it
    was. *)
Theorem program_touches_two_files name code w :
  name ≠ TOKEN_FILE →
  name ≠ INFO_FILE →
  files (snd (exchange_authorization_code provider CLIENT_ID CLIENT_SECRET
                REDIRECT_URI TOKEN_FILE code w)) !! name = files w !! name
  ∧ files (snd (get_userinfo provider CLIENT_ID CLIENT_SECRET TOKEN_FILE
                  INFO_FILE w)) !! name = files w !! name
  ∧ files (snd (revoke_grant provider CLIENT_ID CLIENT_SECRET TOKEN_FILE w))
      !! name = files w !! name.
Proof.
  intros Htoken Hinfo. split; [| split].
  - by apply exchange_other_files.
  - by apply get_userinfo_other_files.
  - by apply revoke_grant_other_files.
Qed.

(** X17: The stored user info outlives the token: neither a revocation nor a
    new code exchange, whatever their outcome, changes the user-info
    file. *)
Theorem userinfo_outlives_token code w :
  TOKEN_FILE ≠ INFO_FILE →
  files (snd (revoke_grant provider CLIENT_ID CLIENT_SECRET TOKEN_FILE w))
    !! INFO_FILE = files w !! INFO_FILE
  ∧ files (snd (exchange_authorization_code provider CLIENT_ID CLIENT_SECRET
                  REDIRECT_URI TOKEN_FILE code w)) !! INFO_FILE
    = files w !! INFO_FILE.
Proof.
  intros Hdistinct. split.
  - by apply revoke_grant_other_files.
  - by apply exchange_other_files.
Qed.

(** X18: When the session already holds a token that has gone stale,
    [revoke_grant] refreshes before it revokes: the refreshed token is
    merge-written to the token file, and it stays written when the provider
    then refuses the revocation and [revoke_grant] returns false. *)
Theorem revoke_grant_after_stale_refresh w w1 (m old new_token : dict) refresh req r :
  files w !! TOKEN_FILE = Some (Doc m) →
  m !! "refresh_token" = Some refresh →
  session_token w = Some old →
  truthy old = true →
  add_token (client w) old (clock w) (revoke_request refresh)
    = Raise TokenExpiredError →
  refresh_token provider token_endpoint (Some (CLIENT_ID, CLIENT_SECRET)) w
    = (Ok new_token, w1) →
  add_token (client w1) new_token (clock w1) (set_auth None (revoke_request refresh))
    = Ok req →
  provider (sent w1) req = Ok r →
  status_code r ≠ 200 →
  fst (revoke_grant provider CLIENT_ID CLIENT_SECRET TOKEN_FILE w) = Ok false
  ∧ files (snd (revoke_grant provider CLIENT_ID CLIENT_SECRET TOKEN_FILE w))
    = <[TOKEN_FILE := Doc (dict_update m new_token)]> (files w).
Proof.
  intros Hdoc Hkey Htoken Htruthy Hstale Hrefresh Hattach Hanswer Hstatus.
  apply Z.eqb_neq in Hstatus.
  pose proof (preserves_refresh_token provider token_endpoint
                (Some (CLIENT_ID, CLIENT_SECRET)) w) as [Hfiles Hdumped].
  rewrite Hrefresh in Hfiles, Hdumped. simpl in Hfiles, Hdumped.
  assert (Hrun :
    revoke_grant provider CLIENT_ID CLIENT_SECRET TOKEN_FILE w
    = (Ok false,
       set_sent (sent w1 ++ [req])
         (set_dumped (dumped w1 ++ [(TOKEN_FILE, dict_update m new_token)])
            (set_files (<[TOKEN_FILE := Doc (dict_update m new_token)]> (files w1))
               w1)))).
  { unfold revoke_grant, bind at 1 2. rewrite read_file_run.
    unfold loaded. rewrite Hdoc. simpl. rewrite Hkey. simpl.
    unfold bind at 1. fold revoke_endpoint.
    rewrite (oauth_request_refresh_run provider TOKEN_FILE "POST" revoke_endpoint
               _ None None (Some (CLIENT_ID, CLIENT_SECRET)) w w1 old new_token
               Htoken Htruthy Hstale Hrefresh).
    unfold __refresh_access_token__, bind. rewrite write_file_run. cbv zeta.
    unfold ret. cbv beta iota.
    cbn [snd client clock sent set_dumped set_files].
    fold (revoke_request refresh). rewrite Hattach.
    unfold http_send. cbn [snd sent set_dumped set_files].
    rewrite Hanswer, Hstatus. rewrite Hfiles at 1 2. unfold loaded.
    rewrite Hdoc. by rewrite or_empty_Some. }
  rewrite Hrun. simpl. by rewrite Hfiles.
Qed.

(** What the session's token updater does. *)
Lemma refresh_access_token_run (new_token : dict) w :
  __refresh_access_token__ TOKEN_FILE new_token w
  = (Ok new_token,
     set_dumped
       (dumped w ++
        [(TOKEN_FILE, dict_update (or_empty (loaded (files w) TOKEN_FILE)) new_token)])
       (set_files
          (<[TOKEN_FILE :=
               Doc (dict_update (or_empty (loaded (files w) TOKEN_FILE)) new_token)]>
             (files w)) w)).
Proof.
  unfold __refresh_access_token__, bind. by rewrite write_file_run.
Qed.

(** X19: The whole path of a stale token: when the token that [get_userinfo]
    loads has expired, the refresh returns [new_token] and the endpoint then
    answers 200 with [claims], the call returns [claims], the token file
    holds the stored record updated with [new_token], and the user-info file
    holds the stored info updated with [claims]. *)
Theorem get_userinfo_refreshes_then_fetches
    w w0 w1 (m new_token claims : dict) req r :
  TOKEN_FILE ≠ INFO_FILE →
  files w !! TOKEN_FILE = Some (Doc m) →
  truthy m = true →
  token_setter (Some m) w = (Ok tt, w0) →
  add_token (client w0) m (clock w0)
    (HttpRequest "POST" userinfo_endpoint [] None ∅) = Raise TokenExpiredError →
  refresh_token provider token_endpoint
    (refresh_auth (Some CLIENT_ID) (Some CLIENT_SECRET) None) w0
    = (Ok new_token, w1) →
  add_token (client w1) new_token (clock w1)
    (set_auth None (HttpRequest "POST" userinfo_endpoint [] None ∅)) = Ok req →
  provider (sent w1) req = Ok r →
  status_code r = 200 →
  text r = Doc claims →
  fst (get_userinfo provider CLIENT_ID CLIENT_SECRET TOKEN_FILE INFO_FILE w)
    = Ok claims
  ∧ files (snd (get_userinfo provider CLIENT_ID CLIENT_SECRET TOKEN_FILE
                  INFO_FILE w)) !! TOKEN_FILE
    = Some (Doc (dict_update m new_token))
  ∧ files (snd (get_userinfo provider CLIENT_ID CLIENT_SECRET TOKEN_FILE
                  INFO_FILE w)) !! INFO_FILE
    = Some (Doc (dict_update (or_empty (loaded (files w) INFO_FILE)) claims)).
Proof.
  intros Hdistinct Hdoc Htruthy Hset Hstale Hrefresh Hattach Hanswer Hstatus Hbody.
  assert (Hw0 : session_token w0 = Some m ∧ files w0 = files w).
  { unfold token_setter in Hset.
    destruct (populate_token_attributes _ _ _) as [c |]; [| done].
    by injection Hset as <-. }
  destruct Hw0 as [Htoken Hfiles0].
  pose proof (preserves_refresh_token provider token_endpoint
                (refresh_auth (Some CLIENT_ID) (Some CLIENT_SECRET) None) w0)
    as [Hfiles1 _].
  rewrite Hrefresh in Hfiles1. simpl in Hfiles1.
  set (token_files := <[TOKEN_FILE := Doc (dict_update m new_token)]> (files w)).
  set (info := dict_update (or_empty (loaded (files w) INFO_FILE)) claims).
  assert (Hrun : ∃ after,
    get_userinfo provider CLIENT_ID CLIENT_SECRET TOKEN_FILE INFO_FILE w
      = (Ok claims, after)
    ∧ files after = <[INFO_FILE := Doc info]> token_files).
  { eexists. split.
    - unfold get_userinfo, bind at 1 2 3. rewrite read_file_run.
      unfold loaded at 1. rewrite Hdoc, Hset. fold userinfo_endpoint.
      rewrite (oauth_request_refresh_run provider TOKEN_FILE "POST"
                 userinfo_endpoint ∅ (Some CLIENT_ID) (Some CLIENT_SECRET) None
                 w0 w1 m new_token Htoken Htruthy Hstale Hrefresh).
      rewrite refresh_access_token_run.
      cbn [snd client clock sent set_dumped set_files].
      rewrite Hattach. unfold http_send.
      cbn [snd sent set_dumped set_files]. rewrite Hanswer, Hstatus.
      change ((200 =? 200)%Z) with true. cbv iota.
      unfold bind, response_json. rewrite Hbody. unfold ret at 1.
      rewrite write_file_run. cbv zeta. unfold ret. reflexivity.
    - cbn [files set_sent set_dumped set_files].
      rewrite Hfiles1, Hfiles0.
      assert (Hm : or_empty (loaded (files w) TOKEN_FILE) = m).
      { unfold loaded. rewrite Hdoc. apply or_empty_Some. }
      rewrite Hm.
      rewrite (loaded_insert_ne (files w) TOKEN_FILE INFO_FILE) by done.
      reflexivity. }
  destruct Hrun as (after & Hrun & Hafter). rewrite Hrun. simpl.
  rewrite Hafter. subst token_files. split; [done |]. split.
  - rewrite lookup_insert_ne by done. by rewrite lookup_insert_eq.
  - by rewrite lookup_insert_eq.
Qed.

End ProgramLaws.

(** ** The laws on concrete worlds *)

Section MoreRuns.

Import Demo.

Ltac by_evaluation :=
  lazymatch goal with
  | |- ?x = _ => vm_cast_no_check (@eq_refl _ x)
  end.

Lemma write_then_read_witness :
  __read_file__ token_file
    (snd (__write_file__ issued token_file (start {[ token_file := Doc ∅ ]} 0)))
  = (Ok (Some issued),
     snd (__write_file__ issued token_file (start {[ token_file := Doc ∅ ]} 0))).
Proof.
  apply (write_then_read token_file issued (start {[ token_file := Doc ∅ ]} 0)).
  right. by_evaluation.
Defined.

(** A refresh-like write over the stored token: the scope stays, the access
    token is replaced. *)
Lemma write_keeps_stored_keys_witness :
  ∃ after : dict,
    __read_file__ token_file
      (snd (__write_file__ reissued token_file (start {[ token_file := Doc kept ]} 0)))
    = (Ok (Some after),
       snd (__write_file__ reissued token_file (start {[ token_file := Doc kept ]} 0)))
    ∧ after !! "scope" = Some (JStr "openid email profile")
    ∧ after !! "access_token" = Some (JStr "B").
Proof.
  destruct (write_keeps_stored_keys token_file kept reissued
              (start {[ token_file := Doc kept ]} 0))
    as (after & Hread & Hold & Hnew & _); [by_evaluation |].
  exists after. split; [exact Hread |]. split.
  - apply Hold; by_evaluation.
  - apply Hnew; by_evaluation.
Defined.

Lemma write_touches_one_file_witness :
  files (snd (__write_file__ issued token_file
                (start {[ info_file := Doc claims ]} 0))) !! info_file
  = files (start {[ info_file := Doc claims ]} 0) !! info_file.
Proof.
  apply (write_touches_one_file token_file info_file issued
           (start {[ info_file := Doc claims ]} 0)).
  discriminate.
Defined.

Lemma write_write_commute_witness :
  files (snd ((let* _ := __write_file__ {[ "sub" := JStr "123" ]} info_file in
               __write_file__ {[ "email" := JStr "x@y.com" ]} info_file)
                (start ∅ 0)))
  = files (snd ((let* _ := __write_file__ {[ "email" := JStr "x@y.com" ]} info_file in
                 __write_file__ {[ "sub" := JStr "123" ]} info_file)
                  (start ∅ 0))).
Proof.
  apply (write_write_commute info_file {[ "sub" := JStr "123" ]}
           {[ "email" := JStr "x@y.com" ]} (start ∅ 0)).
  apply map_disjoint_singleton_l, lookup_singleton_ne. discriminate.
Defined.

(** A request with a token that is still valid. *)
Lemma request_without_refresh_writes_nothing_witness :
  files (snd (oauth_request (provider (answer 200 reissued) (answer 200 claims))
                token_file "POST" userinfo_url ∅
                (Some client_id) (Some client_secret) None false
                (loaded_session {[ token_file := Doc kept ]} 1000)))
  = files (loaded_session {[ token_file := Doc kept ]} 1000).
Proof.
  apply (request_without_refresh_writes_nothing
           (provider (answer 200 reissued) (answer 200 claims))
           token_file "POST" userinfo_url ∅
           (Some client_id) (Some client_secret) None false
           (loaded_session {[ token_file := Doc kept ]} 1000)).
  intros token Htoken E. cbv in E. discriminate E.
Defined.

(** The stored token has expired and the provider rejects the refresh. *)
Lemma refresh_failure_propagates_witness :
  fst (oauth_request
         (provider (answer 400 {[ "error" := JStr "invalid_grant" ]}) (answer 200 claims))
         token_file "POST" userinfo_url ∅
         (Some client_id) (Some client_secret) None false
         (loaded_session {[ token_file := Doc kept ]} 4000))
    = Raise (OAuth2Error "invalid_grant")
  ∧ files (snd (oauth_request
                  (provider (answer 400 {[ "error" := JStr "invalid_grant" ]})
                     (answer 200 claims))
                  token_file "POST" userinfo_url ∅
                  (Some client_id) (Some client_secret) None false
                  (loaded_session {[ token_file := Doc kept ]} 4000)))
    = {[ token_file := Doc kept ]}.
Proof.
  destruct (refresh_failure_propagates
              (provider (answer 400 {[ "error" := JStr "invalid_grant" ]})
                 (answer 200 claims))
              token_file "POST" userinfo_url ∅
              (Some client_id) (Some client_secret) None
              (loaded_session {[ token_file := Doc kept ]} 4000)
              (snd (refresh_token
                      (provider (answer 400 {[ "error" := JStr "invalid_grant" ]})
                         (answer 200 claims))
                      token_url (Some (client_id, client_secret))
                      (loaded_session {[ token_file := Doc kept ]} 4000)))
              kept (OAuth2Error "invalid_grant"))
    as (Hrun & Hfiles & _); [by_evaluation ..|].
  rewrite Hrun. split; [reflexivity | exact Hfiles].
Defined.

(** The provider cannot be reached. *)
Lemma get_userinfo_failure_propagates_witness :
  fst (get_userinfo unreachable client_id client_secret token_file info_file
         (start {[ token_file := Doc kept ]} 1000)) = Raise RequestException.
Proof.
  destruct (get_userinfo_failure_propagates unreachable
              client_id client_secret token_file info_file
              (start {[ token_file := Doc kept ]} 1000)
              (snd (token_setter (Some kept) (start {[ token_file := Doc kept ]} 1000)))
              (snd (oauth_request unreachable token_file "POST" userinfo_url ∅
                      (Some client_id) (Some client_secret) None false
                      (snd (token_setter (Some kept)
                              (start {[ token_file := Doc kept ]} 1000)))))
              RequestException)
    as [Hrun _]; [discriminate | by_evaluation ..|].
  rewrite Hrun. reflexivity.
Defined.

(** The user-info endpoint answers 200 with a page that is not JSON. *)
Lemma get_userinfo_bad_body_witness :
  fst (get_userinfo
         (provider (answer 200 issued) (HttpResponse 200 (Malformed "<html>")))
         client_id client_secret token_file info_file
         (start {[ token_file := Doc kept ]} 1000)) = Raise JSONDecodeError.
Proof.
  destruct (get_userinfo_bad_body
              (provider (answer 200 issued) (HttpResponse 200 (Malformed "<html>")))
              client_id client_secret token_file info_file
              (start {[ token_file := Doc kept ]} 1000)
              (snd (token_setter (Some kept) (start {[ token_file := Doc kept ]} 1000)))
              (snd (oauth_request
                      (provider (answer 200 issued)
                         (HttpResponse 200 (Malformed "<html>")))
                      token_file "POST" userinfo_url ∅
                      (Some client_id) (Some client_secret) None false
                      (snd (token_setter (Some kept)
                              (start {[ token_file := Doc kept ]} 1000)))))
              (HttpResponse 200 (Malformed "<html>")) "<html>")
    as [Hrun _]; [discriminate | by_evaluation ..|].
  rewrite Hrun. reflexivity.
Defined.

Lemma revoke_grant_sends_one_request_witness :
  fst (revoke_grant unreachable client_id client_secret token_file
         (start {[ token_file := Doc kept ]} 0)) = Raise RequestException
  ∧ files (snd (revoke_grant unreachable client_id client_secret token_file
                  (start {[ token_file := Doc kept ]} 0)))
    = files (start {[ token_file := Doc kept ]} 0).
Proof.
  destruct (revoke_grant_sends_one_request unreachable
              client_id client_secret token_file
              (start {[ token_file := Doc kept ]} 0) kept (JStr "R"))
    as [_ Hfailure]; [by_evaluation ..|].
  apply Hfailure. reflexivity.
Defined.

Lemma revoked_then_no_token_witness :
  fst (get_userinfo (provider (answer 200 issued) (answer 200 ∅))
         client_id client_secret token_file info_file
         (snd (revoke_grant (provider (answer 200 issued) (answer 200 ∅))
                 client_id client_secret token_file
                 (start {[ token_file := Doc kept ]} 0))))
  = Raise TypeError.
Proof.
  destruct (revoked_then_no_token (provider (answer 200 issued) (answer 200 ∅))
              client_id client_secret token_file info_file
              (start {[ token_file := Doc kept ]} 0) kept (JStr "R")
              (answer 200 ∅))
    as (_ & Hinfo & _); [by_evaluation ..|].
  exact Hinfo.
Defined.

Lemma empty_token_record_goes_unauthenticated_witness :
  get_userinfo (provider (answer 200 issued) (answer 401 ∅))
    client_id client_secret token_file info_file
    (start {[ token_file := Doc ∅ ]} 0)
  = (Ok ∅,
     set_sent
       (sent (start {[ token_file := Doc ∅ ]} 0) ++
        [HttpRequest "POST" (urljoin API_BASE_URL "/openid/v1/userinfo") [] None ∅])
       (set_client (Bearer None None)
          (set_session_token (Some ∅) (start {[ token_file := Doc ∅ ]} 0)))).
Proof.
  apply (empty_token_record_goes_unauthenticated
           (provider (answer 200 issued) (answer 401 ∅))
           client_id client_secret token_file info_file
           (start {[ token_file := Doc ∅ ]} 0) (Bearer None None) (answer 401 ∅));
    [by_evaluation .. | discriminate].
Defined.

(** A second exchange over the stored token: the scope, which the new
    token does not carry, is still stored. *)
Lemma exchange_keeps_old_fields_witness :
  ∃ stored : dict,
    files (snd (exchange_authorization_code
                  (provider (answer 200 reissued) (answer 200 claims))
                  client_id client_secret redirect_uri token_file "valid-code"
                  (start {[ token_file := Doc kept ]} 0))) !! token_file
      = Some (Doc stored)
    ∧ stored !! "scope" = Some (JStr "openid email profile").
Proof.
  destruct (exchange_keeps_old_fields
              (provider (answer 200 reissued) (answer 200 claims))
              client_id client_secret redirect_uri token_file "valid-code"
              (start {[ token_file := Doc kept ]} 0)
              (snd (oauth_fetch_token
                      (provider (answer 200 reissued) (answer 200 claims))
                      client_id redirect_uri token_url "valid-code" client_secret
                      (start {[ token_file := Doc kept ]} 0)))
              kept (<["expires_at" := JNum 3600]> reissued))
    as (stored & Hfile & Hold); [by_evaluation ..|].
  exists stored. split; [exact Hfile |]. apply Hold; by_evaluation.
Defined.

Lemma program_touches_two_files_witness :
  files (snd (revoke_grant (provider (answer 200 issued) (answer 200 ∅))
                client_id client_secret token_file
                (start {[ token_file := Doc kept; "notes.txt" := Malformed "to do" ]} 0)))
    !! "notes.txt"
  = files (start {[ token_file := Doc kept; "notes.txt" := Malformed "to do" ]} 0)
      !! "notes.txt".
Proof.
  apply (program_touches_two_files (provider (answer 200 issued) (answer 200 ∅))
           client_id client_secret redirect_uri token_file info_file
           "notes.txt" "valid-code"
           (start {[ token_file := Doc kept; "notes.txt" := Malformed "to do" ]} 0));
    discriminate.
Defined.

(** The session holds the stored token, which has expired; the refresh
    succeeds and the revocation endpoint answers 404. *)
Lemma revoke_grant_after_stale_refresh_witness :
  fst (revoke_grant (provider (answer 200 reissued) (answer 404 ∅))
         client_id client_secret token_file
         (loaded_session {[ token_file := Doc kept ]} 4000)) = Ok false
  ∧ files (snd (revoke_grant (provider (answer 200 reissued) (answer 404 ∅))
                  client_id client_secret token_file
                  (loaded_session {[ token_file := Doc kept ]} 4000)))
    = {[ token_file :=
           Doc (<["access_token" := JStr "B"]> (<["expires_at" := JNum 7600]> kept)) ]}.
Proof.
  destruct (revoke_grant_after_stale_refresh
              (provider (answer 200 reissued) (answer 404 ∅))
              client_id client_secret token_file
              (loaded_session {[ token_file := Doc kept ]} 4000)
              (snd (refresh_token (provider (answer 200 reissued) (answer 404 ∅))
                      token_url (Some (client_id, client_secret))
                      (loaded_session {[ token_file := Doc kept ]} 4000)))
              kept kept
              (<["refresh_token" := JStr "R"]> (<["expires_at" := JNum 7600]> reissued))
              (JStr "R")
              (HttpRequest "POST" (urljoin API_BASE_URL "/oauth2/revoke")
                 [("Authorization", "Bearer B")] None
                 {[ "token" := JStr "R"; "token_type_hint" := JStr "refresh_token" ]})
              (answer 404 ∅))
    as [Hret Hfiles]; [by_evaluation .. | discriminate |].
  split; [exact Hret |]. rewrite Hfiles. by_evaluation.
Defined.

(** A revocation that succeeds leaves the stored user info in place. *)
Lemma userinfo_outlives_token_witness :
  files (snd (revoke_grant (provider (answer 200 issued) (answer 200 ∅))
                client_id client_secret token_file
                (start {[ token_file := Doc kept; info_file := Doc claims ]} 0)))
    !! info_file
  = files (start {[ token_file := Doc kept; info_file := Doc claims ]} 0)
      !! info_file.
Proof.
  apply (userinfo_outlives_token (provider (answer 200 issued) (answer 200 ∅))
           client_id client_secret redirect_uri token_file info_file "valid-code"
           (start {[ token_file := Doc kept; info_file := Doc claims ]} 0)).
  discriminate.
Defined.

(** The scenario of a stale stored token, from the command down: the token
    is refreshed and persisted next to its scope, and the claims are
    returned and stored. *)
Lemma get_userinfo_refreshes_then_fetches_witness :
  fst (get_userinfo (provider (answer 200 reissued) (answer 200 claims))
         client_id client_secret token_file info_file
         (start {[ token_file := Doc kept ]} 4000)) = Ok claims
  ∧ files (snd (get_userinfo (provider (answer 200 reissued) (answer 200 claims))
                  client_id client_secret token_file info_file
                  (start {[ token_file := Doc kept ]} 4000))) !! token_file
    = Some (Doc (<["access_token" := JStr "B"]> (<["expires_at" := JNum 7600]> kept)))
  ∧ files (snd (get_userinfo (provider (answer 200 reissued) (answer 200 claims))
                  client_id client_secret token_file info_file
                  (start {[ token_file := Doc kept ]} 4000))) !! info_file
    = Some (Doc claims).
Proof.
  destruct (get_userinfo_refreshes_then_fetches
              (provider (answer 200 reissued) (answer 200 claims))
              client_id client_secret token_file info_file
              (start {[ token_file := Doc kept ]} 4000)
              (snd (token_setter (Some kept) (start {[ token_file := Doc kept ]} 4000)))
              (snd (refresh_token (provider (answer 200 reissued) (answer 200 claims))
                      token_url (Some (client_id, client_secret))
                      (snd (token_setter (Some kept)
                              (start {[ token_file := Doc kept ]} 4000)))))
              kept
              (<["refresh_token" := JStr "R"]> (<["expires_at" := JNum 7600]> reissued))
              claims
              (HttpRequest "POST" userinfo_url [("Authorization", "Bearer B")] None ∅)
              (answer 200 claims))
    as (Hret & Htoken & Hinfo); [discriminate | by_evaluation ..|].
  split; [exact Hret |]. split.
  - rewrite Htoken. by_evaluation.
  - rewrite Hinfo. by_evaluation.
Defined.

End MoreRuns.
